(** * UniUnity admin backend and admin store: a shallow embedding

    The repository holds several near-duplicate versions of one
    Express/Mongoose server and a zustand store that talks to it.  Each
    version is embedded in a module of its own, named after the file it
    comes from:

    - [ServerA]    src/backend/server.js, first document  (lines 1-172)
    - [ServerB]    src/backend/server.js, second document (lines 173-335)
    - [Part000]    src/unnamed/part_000
    - [Part001]    src/unnamed/part_001
    - [Part002]    src/unnamed/part_002
    - [AdminStore] src/unnamed/part_003, second document  (lines 744-885)

    [bcrypt] and Mongoose are not in the repository; what the handlers need
    of them is the class [Platform], and [Reference] is one instance of it.

    Request handlers are computations in a small monad [M] that threads the
    document store, records every call made to a Mongoose model, and can
    throw (a rejected promise inside the handler's [try]). *)

From Stdlib Require Import String Ascii ZArith List Bool Lia.
From stdpp Require Import base option list gmap strings.

Set Warnings "-register-all".

Local Open Scope string_scope.
Local Open Scope list_scope.

(** ** JavaScript values *)

Module Js.

(** The JSON values that occur in request bodies, documents and the
    client's objects: strings, nested objects, [null], and [undefined] for a
    property that is read but not there.  Numbers, booleans and arrays occur
    in no field of the schemas or of the client's interfaces. *)
Inductive value : Type :=
| VUndefined
| VNull
| VStr (s : string)
| VObj (fields : list (string * value)).

(** An object whose keys are all known: request bodies, documents. *)
Abbreviation object := (gmap string value).

(** [o.k]: reading a property that is absent gives [undefined]. *)
Definition prop (o : object) (k : string) : value :=
  match o !! k with
  | Some v => v
  | None => VUndefined
  end.

(** Truthiness, as [if (v)], [!v], [v || d] and [v ? a : b] test it. *)
Definition truthy (v : value) : bool :=
  match v with
  | VUndefined | VNull => false
  | VStr s => negb (String.eqb s "")
  | VObj _ => true
  end.

(** [a || b] *)
Definition or_else (a b : value) : value := if truthy a then a else b.

(** [{ ...a, ...b }]: the own keys of [b] replace those of [a]. *)
Definition spread (a b : object) : object := b ∪ a.

(** [v !== s] for a string [s]: only the same string is strictly equal. *)
Definition strict_ne_str (v : value) (s : string) : bool :=
  match v with
  | VStr t => negb (String.eqb t s)
  | _ => true
  end.

Definition is_absent (v : value) : bool :=
  match v with
  | VUndefined | VNull => true
  | _ => false
  end.

(** A field that is a string when it is there at all. *)
Definition string_or_absent (v : value) : bool :=
  match v with
  | VObj _ => false
  | _ => true
  end.

End Js.
Export Js.

(** ** The libraries the servers call *)

(** [bcrypt] and the version-dependent corners of Mongoose are not part of
    the repository.  They are taken as a parameter:

    - [bhash salt data] is [bcrypt.hash(data, 10)] when the salt it draws is
      [salt]; [bcompare data hash] is [bcrypt.compare(data, hash)] on two
      strings.  bcrypt is taken as an ideal salted hash: a candidate verifies
      against a hash exactly when it is the hashed password, and the empty
      string is no hash at all.
    - [omitUndefined]: what an update does with a key whose value is
      [undefined].  Mongoose 6 and later remove the key ([true]); Mongoose 5
      writes [null] ([false]).
    - [castNested keys v]: what an update stores for a nested path with
      sub-paths [keys] when it is given [v] ([None] when the cast throws).
    - [findOneLoose v docs]: the result of [Model.findOne({ email: v })] for
      a [v] that is not a string ([None] when the query throws). *)
Class Platform : Type := {
  bhash : string -> string -> string;
  bcompare : string -> string -> bool;
  bcompare_bhash : forall salt p q, bcompare p (bhash salt q) = true <-> p = q;
  bcompare_empty : forall p, bcompare p "" = false;
  omitUndefined : bool;
  castNested : list string -> value -> option value;
  findOneLoose : forall {A : Type}, value -> list A -> option (option A)
}.

(** [bcrypt.hash(data, 10)]: rejects unless [data] is a string. *)
Definition bcrypt_hash `{Platform} (salt : string) (data : value) : option string :=
  match data with
  | VStr s => Some (bhash salt s)
  | _ => None
  end.

(** [bcrypt.compare(data, hash)]: rejects unless both are strings. *)
Definition bcrypt_compare `{Platform} (data hash : value) : option bool :=
  match data, hash with
  | VStr d, VStr h => Some (bcompare d h)
  | _, _ => None
  end.

(** ** Persistence layer *)

Module Mongo.

Definition ObjectId := nat.

(** [adminSchema = { email: String, password: String }] *)
Record Admin : Type := { email : string; password : string }.

(** [blogSchema]; a field that was never set is [None]. *)
Record Blog : Type := {
  title : option string;
  content : option string;
  seoTitle : option string;
  seoDescription : option string;
  createdAt : Z;
  status : string
}.

(** The three collections.  Blog documents are keyed by their [_id]; the
    Config collection is only ever written by an upsert with an empty filter
    and so holds at most one document. *)
Record db : Type := {
  admins : list Admin;
  blogs : gmap ObjectId Blog;
  config : option object;
  next_id : ObjectId
}.

Definition empty_db : db :=
  {| admins := []; blogs := ∅; config := None; next_id := 0 |}.

Definition set_admins (a : list Admin) (s : db) : db :=
  {| admins := a; blogs := blogs s; config := config s; next_id := next_id s |}.

Definition set_blogs (b : gmap ObjectId Blog) (s : db) : db :=
  {| admins := admins s; blogs := b; config := config s; next_id := next_id s |}.

Definition set_config (c : option object) (s : db) : db :=
  {| admins := admins s; blogs := blogs s; config := c; next_id := next_id s |}.

(** Calls made to a Mongoose model. *)
Inductive op : Type :=
| AdminCountDocuments (email : string)
| AdminCreate (a : Admin)
| AdminFindOne (email : value)
| BlogSave (id : ObjectId)
| BlogFindByIdAndDelete (id : ObjectId)
| ConfigFindOne
| ConfigFindOneAndUpdate (update : object).

(** A handler step: a result or a throw, the store afterwards, and the
    model calls made. *)
Definition M (A : Type) : Type := db -> option A * db * list op.

Definition ret {A} (a : A) : M A := fun s => (Some a, s, []).

Definition throw {A} : M A := fun s => (None, s, []).

Definition bind {A B} (m : M A) (f : A -> M B) : M B :=
  fun s =>
    match m s with
    | (Some a, s1, t1) =>
        match f a s1 with
        | (r, s2, t2) => (r, s2, t1 ++ t2)
        end
    | (None, s1, t1) => (None, s1, t1)
    end.

(** [try { m } catch (error) { h }] *)
Definition try_catch {A} (m : M A) (h : M A) : M A :=
  fun s =>
    match m s with
    | (None, s1, t1) =>
        match h s1 with
        | (r, s2, t2) => (r, s2, t1 ++ t2)
        end
    | done => done
    end.

(** [await p] for a promise that resolves to [a] or rejects. *)
Definition await {A} (p : option A) : M A :=
  match p with
  | Some a => ret a
  | None => throw
  end.

Definition call {A} (o : op) (f : db -> option A * db) : M A :=
  fun s => match f s with (r, s1) => (r, s1, [o]) end.

(** What running [m] on store [s] answers, leaves behind, and calls. *)
Definition result {A} (m : M A) (s : db) : option A := (m s).1.1.
Definition store {A} (m : M A) (s : db) : db := (m s).1.2.
Definition trace {A} (m : M A) (s : db) : list op := (m s).2.

(** [preserves I m]: running [m] on a store where [I] holds leaves a store
    where [I] holds. *)
Definition preserves {A} (I : db -> Prop) (m : M A) : Prop :=
  forall s, I s -> I (store m s).

End Mongo.
Export Mongo.

Declare Scope handler_scope.
Delimit Scope handler_scope with handler.
Notation "'let*' x ':=' m 'in' k" := (bind m (fun x => k))
  (at level 10, x name, m at level 100, k at level 200) : handler_scope.
Notation "m ';;' k" := (bind m (fun _ => k))
  (at level 100, k at level 200, right associativity) : handler_scope.
Local Open Scope handler_scope.

Definition is_Some_b {A} (o : option A) : bool :=
  match o with
  | Some _ => true
  | None => false
  end.

(** ** Mongoose models *)

Module Model.

(** *** Admin *)

Definition has_email (e : string) (a : Admin) : bool := String.eqb (email a) e.

(** [Admin.countDocuments({ email: e })] *)
Definition Admin_countDocuments (e : string) : M nat :=
  call (AdminCountDocuments e)
       (fun s => (Some (length (List.filter (has_email e) (admins s))), s)).

(** [Admin.create(a)] *)
Definition Admin_create (a : Admin) : M unit :=
  call (AdminCreate a)
       (fun s => (Some tt, set_admins (admins s ++ [a]) s)).

(** [Admin.findOne({ email: v })] *)
Definition Admin_findOne `{Platform} (v : value) : M (option Admin) :=
  call (AdminFindOne v)
       (fun s => (match v with
                  | VStr e => Some (List.find (has_email e) (admins s))
                  | _ => findOneLoose v (admins s)
                  end, s)).

(** *** Blog *)

(** Casting a value to a [String] path: a plain object does not cast. *)
Definition cast_string (v : value) : option (option string) :=
  match v with
  | VStr s => Some (Some s)
  | VUndefined | VNull => Some None
  | VObj _ => None
  end.

(** [new Blog({ title, content, seoTitle, seoDescription })] at time [now]:
    the schema defaults fill [createdAt] and [status]; a fresh [_id] is
    drawn.  A value that does not cast makes the later [save()] reject
    ([None]). *)
Definition new_Blog (now : Z) (t c st sd : value) : M (ObjectId * option Blog) :=
  fun s =>
    (Some (next_id s,
           match cast_string t, cast_string c, cast_string st, cast_string sd with
           | Some t', Some c', Some st', Some sd' =>
               Some {| title := t'; content := c'; seoTitle := st';
                       seoDescription := sd'; createdAt := now;
                       status := "published" |}
           | _, _, _, _ => None
           end),
     {| admins := admins s; blogs := blogs s; config := config s;
        next_id := S (next_id s) |},
     []).

(** The [required: true] validator of a [String] path. *)
Definition required (f : option string) : bool :=
  match f with
  | Some s => negb (String.eqb s "")
  | None => false
  end.

(** [blog.save()], with the schema's validator; resolves to the document. *)
Definition Blog_save (valid : Blog -> bool) (doc : ObjectId * option Blog) : M Blog :=
  call (BlogSave (fst doc))
       (fun s =>
          match snd doc with
          | Some b =>
              if valid b
              then (Some b, set_blogs (<[fst doc := b]> (blogs s)) s)
              else (None, s)
          | None => (None, s)
          end).

(** [Blog.findByIdAndDelete(id)] *)
Definition Blog_findByIdAndDelete (id : ObjectId) : M (option Blog) :=
  call (BlogFindByIdAndDelete id)
       (fun s => (Some (blogs s !! id), set_blogs (delete id (blogs s)) s)).

(** *** Config *)

Inductive path_type : Type :=
| PString
| PNested (keys : list string).

(** [configSchema] of server.js, part_000 and part_002. *)
Definition configSchema : list (string * path_type) :=
  [ ("title", PString);
    ("favicon", PString);
    ("banner", PNested ["heading"; "subtext"]);
    ("seo", PNested ["title"; "description"]);
    ("homepageAd", PNested ["text"; "image"]);
    ("adminUsername", PString);
    ("adminPassword", PString) ].

Definition cast_path `{Platform} (t : path_type) (v : value) : option value :=
  match t with
  | PString =>
      match v with
      | VStr s => Some (VStr s)
      | VNull => Some VNull
      | _ => None
      end
  | PNested keys => castNested keys v
  end.

(** Casting an update against a schema (strict mode): keys outside the
    schema are dropped, each value is cast to its path's type, and an
    [undefined] value is removed or becomes [null]. *)
Fixpoint castUpdate `{Platform} (schema : list (string * path_type)) (u : object)
  : option object :=
  match schema with
  | [] => Some ∅
  | (k, t) :: rest =>
      match castUpdate rest u with
      | None => None
      | Some m =>
          match u !! k with
          | None => Some m
          | Some VUndefined =>
              Some (if omitUndefined then m else <[k := VNull]> m)
          | Some v =>
              match cast_path t v with
              | Some v' => Some (<[k := v']> m)
              | None => None
              end
          end
      end
  end.

Arguments castUpdate : simpl never.

(** The type the schema gives to a top-level key. *)
Fixpoint path_of (schema : list (string * path_type)) (k : string)
  : option path_type :=
  match schema with
  | [] => None
  | (k', t) :: rest => if String.eqb k' k then Some t else path_of rest k
  end.

(** Every value given for a key of the schema casts to the key's type. *)
Definition conforms `{Platform} (schema : list (string * path_type)) (u : object)
  : bool :=
  forallb (fun kt => match u !! kt.1 with
                     | None | Some VUndefined => true
                     | Some v => is_Some_b (cast_path kt.2 v)
                     end) schema.

(** [Config.findOne()] *)
Definition Config_findOne : M (option object) :=
  call ConfigFindOne (fun s => (Some (config s), s)).

(** [Config.findOneAndUpdate({}, update, { upsert: true, new: true })]: the
    cast update is [$set] on the one document, which is created when there
    is none; the document after the update is returned. *)
Definition Config_findOneAndUpdate `{Platform} (update : object) : M object :=
  call (ConfigFindOneAndUpdate update)
       (fun s =>
          match castUpdate configSchema update with
          | Some u =>
              let doc := u ∪ default ∅ (config s) in
              (Some doc, set_config (Some doc) s)
          | None => (None, s)
          end).

End Model.
Export Model.

(** ** HTTP responses *)

Inductive payload : Type :=
| AuthResult (success : bool) (message : option string)
| Message (message : string)
| Error (error : string)
| ConfigDoc (doc : object)
| BlogDoc (_id : ObjectId) (doc : Blog).

Record response : Type := { code : nat; body : payload }.

(** [res.status(c).json(b)]; [res.json(b)] answers 200. *)
Definition json (c : nat) (b : payload) : response := {| code := c; body := b |}.

(** [currentConfig?.k] and, under a guard that [currentConfig] is there,
    [currentConfig.k]. *)
Definition doc_prop (doc : option object) (k : string) : value :=
  match doc with
  | Some d => prop d k
  | None => VUndefined
  end.

(** The update object both [POST /api/config] handlers build:
    [{ ...configData, adminUsername, adminPassword: stored }]. *)
Definition config_update (req_body : object) (stored : value) : object :=
  <["adminPassword" := stored]>
    (<["adminUsername" := prop req_body "adminUsername"]>
       (delete "adminPassword" (delete "adminUsername" req_body))).

(** The store and answer after the upsert of [u], or the 500 that its cast
    failure is turned into, after the model calls [before]. *)
Definition upsert_outcome `{Platform} (failure : payload) (before : list op)
    (u : object) (s : db) : option response * db * list op :=
  match castUpdate configSchema u with
  | Some m =>
      let doc := m ∪ default ∅ (config s) in
      (Some (json 200 (ConfigDoc doc)), set_config (Some doc) s,
       before ++ [ConfigFindOneAndUpdate u])
  | None =>
      (Some (json 500 failure), s, before ++ [ConfigFindOneAndUpdate u])
  end.

(** A stored [adminPassword] is a string or [null], as a cast to [String]
    leaves it. *)
Definition string_or_null (v : value) : bool :=
  match v with
  | VStr _ | VNull => true
  | _ => false
  end.

Definition config_wf (c : option object) : Prop :=
  forall doc v, c = Some doc -> doc !! "adminPassword" = Some v ->
                string_or_null v = true.

(** ** src/backend/server.js, first document *)

Module ServerA.

(** Lines 38-50: the admin seed, run once at start-up. *)
Definition seed `{Platform} (salt : string) : M unit :=
  try_catch
    (let* adminExists := Admin_countDocuments "admin" in
     if Nat.eqb adminExists 0 then
       let* hashedPassword := await (bcrypt_hash salt (VStr "UniUnity2025!")) in
       Admin_create {| email := "admin"; password := hashedPassword |}
     else ret tt)
    (ret tt).

(** Lines 52-64: [POST /api/auth]. *)
Definition auth `{Platform} (req_body : object) : M response :=
  try_catch
    (let username := prop req_body "username" in
     let password := prop req_body "password" in
     let* admin := Admin_findOne username in
     match admin with
     | Some a =>
         let* ok := await (bcrypt_compare password (VStr a.(Mongo.password))) in
         if ok then ret (json 200 (AuthResult true None))
         else ret (json 401 (AuthResult false (Some "Invalid credentials")))
     | None => ret (json 401 (AuthResult false (Some "Invalid credentials")))
     end)
    (ret (json 500 (AuthResult false (Some "Authentication error")))).

(** Lines 96-105: [POST /api/blogs]. *)
Definition post_blogs (now : Z) (req_body : object) : M response :=
  try_catch
    (let title := prop req_body "title" in
     let content := prop req_body "content" in
     let seoTitle := prop req_body "seoTitle" in
     let seoDescription := prop req_body "seoDescription" in
     let* blog := new_Blog now title content seoTitle seoDescription in
     let* saved := Blog_save (fun _ => true) blog in
     ret (json 200 (BlogDoc (fst blog) saved)))
    (ret (json 500 (Error "Failed to create blog"))).

(** Lines 119-128: [DELETE /api/blogs/:id]. *)
Definition delete_blog (id : ObjectId) : M response :=
  try_catch
    (let* result := Blog_findByIdAndDelete id in
     match result with
     | None => ret (json 404 (Error "Blog not found"))
     | Some _ => ret (json 200 (Message "Blog deleted"))
     end)
    (ret (json 500 (Error "Failed to delete blog"))).

(** Lines 139-146: [GET /api/config]. *)
Definition get_config : M response :=
  try_catch
    (let* config := Config_findOne in
     ret (json 200 (ConfigDoc (default ∅ config))))
    (ret (json 500 (Error "Failed to fetch config"))).

(** Lines 148-160: [POST /api/config]. *)
Definition post_config `{Platform} (salt : string) (req_body : object) : M response :=
  try_catch
    (let adminUsername := prop req_body "adminUsername" in
     let adminPassword := prop req_body "adminPassword" in
     let configData := delete "adminPassword" (delete "adminUsername" req_body) in
     let* hashed := await (bcrypt_hash salt (or_else adminPassword (VStr ""))) in
     let* config :=
       Config_findOneAndUpdate
         (<["adminPassword" := VStr hashed]>
            (<["adminUsername" := adminUsername]> configData)) in
     ret (json 200 (ConfigDoc config)))
    (ret (json 500 (Error "Failed to update config"))).

End ServerA.

(** ** src/backend/server.js, second document *)

Module ServerB.

(** Lines 302-319: [POST /api/config]. *)
Definition post_config `{Platform} (salt : string) (req_body : object) : M response :=
  try_catch
    (let adminUsername := prop req_body "adminUsername" in
     let adminPassword := prop req_body "adminPassword" in
     let configData := delete "adminPassword" (delete "adminUsername" req_body) in
     let* currentConfig := Config_findOne in
     let* isValid :=
       (if is_Some_b currentConfig && truthy adminPassword then
          await (bcrypt_compare
                   (or_else (prop req_body "currentPassword") (VStr ""))
                   (or_else (doc_prop currentConfig "adminPassword") (VStr "")))
        else ret true) in
     if negb isValid then ret (json 401 (Message "Current password is incorrect"))
     else
       let* stored :=
         (if truthy adminPassword then
            let* hashed := await (bcrypt_hash salt adminPassword) in
            ret (VStr hashed)
          else ret (doc_prop currentConfig "adminPassword")) in
       let* updatedConfig :=
         Config_findOneAndUpdate
           (<["adminPassword" := stored]>
              (<["adminUsername" := adminUsername]> configData)) in
       ret (json 200 (ConfigDoc updatedConfig)))
    (ret (json 500 (Message "Failed to update config"))).

End ServerB.

(** ** src/unnamed/part_000 *)

Module Part000.

(** Line 92: [DELETE /api/blogs/:id]; the handler has no [try]. *)
Definition delete_blog (id : ObjectId) : M response :=
  let* _ := Blog_findByIdAndDelete id in
  ret (json 200 (Message "Blog deleted")).

End Part000.

(** ** src/unnamed/part_001 *)

Module Part001.

(** Lines 85-91. *)
Definition defaultConfig : object :=
  list_to_map
    [ ("title", VStr "UniUnity.space");
      ("favicon", VStr "/favicon.ico");
      ("banner", VObj [ ("heading", VStr "Future-Proof Growth");
                        ("subtext", VStr "AI solutions") ]);
      ("seo", VObj [ ("title", VStr "UniUnity - Tech Solutions");
                     ("description", VStr "AI and development services");
                     ("ogImage", VStr "https://example.com/og.jpg") ]);
      ("homepageAd", VObj [ ("text", VStr "Transform with AI");
                            ("image", VStr "https://example.com/ad.jpg") ]) ].

(** Lines 45-48: [GET /api/config]; the handler has no [try]. *)
Definition get_config : M response :=
  let* found := Config_findOne in
  let config := match found with
                | Some c => c
                | None => spread ∅ defaultConfig
                end in
  ret (json 200 (ConfigDoc config)).

End Part001.

(** ** src/unnamed/part_002 *)

Module Part002.

(** Lines 49-61: the admin seed. *)
Definition seed `{Platform} (salt : string) : M unit :=
  try_catch
    (let* adminExists := Admin_countDocuments "admin" in
     if Nat.eqb adminExists 0 then
       let* hashedPassword := await (bcrypt_hash salt (VStr "UniUnity2025!")) in
       Admin_create {| email := "admin"; password := hashedPassword |}
     else ret tt)
    (ret tt).

(** Lines 64-81: [POST /api/auth]. *)
Definition auth `{Platform} (req_body : object) : M response :=
  let username := prop req_body "username" in
  let password := prop req_body "password" in
  if negb (truthy username) || negb (truthy password) then
    ret (json 400 (AuthResult false (Some "Username and password are required")))
  else
    try_catch
      (let* admin := Admin_findOne username in
       match admin with
       | Some a =>
           let* ok := await (bcrypt_compare password (VStr a.(Mongo.password))) in
           if ok then ret (json 200 (AuthResult true None))
           else ret (json 401 (AuthResult false (Some "Invalid credentials")))
       | None => ret (json 401 (AuthResult false (Some "Invalid credentials")))
       end)
      (ret (json 500 (AuthResult false (Some "Server error during authentication")))).

(** Lines 84-91: the validators of [blogSchema] ([status] always holds the
    default, which is in the enum). *)
Definition blog_valid (b : Blog) : bool :=
  required b.(Mongo.title) && required b.(Mongo.content).

(** Lines 117-130: [POST /api/blogs]. *)
Definition post_blogs (now : Z) (req_body : object) : M response :=
  try_catch
    (let title := prop req_body "title" in
     let content := prop req_body "content" in
     let seoTitle := prop req_body "seoTitle" in
     let seoDescription := prop req_body "seoDescription" in
     if negb (truthy title) || negb (truthy content) then
       ret (json 400 (Message "Title and content are required"))
     else
       let* blog := new_Blog now title content seoTitle seoDescription in
       let* saved := Blog_save blog_valid blog in
       ret (json 201 (BlogDoc (fst blog) saved)))
    (ret (json 500 (Message "Failed to create blog"))).

(** Lines 148-158: [DELETE /api/blogs/:id]. *)
Definition delete_blog (id : ObjectId) : M response :=
  try_catch
    (let* result := Blog_findByIdAndDelete id in
     match result with
     | None => ret (json 404 (Message "Blog not found"))
     | Some _ => ret (json 200 (Message "Blog deleted"))
     end)
    (ret (json 500 (Message "Failed to delete blog"))).

(** Lines 161-169: [GET /api/config]. *)
Definition get_config : M response :=
  try_catch
    (let* config := Config_findOne in
     ret (json 200 (ConfigDoc (default ∅ config))))
    (ret (json 500 (Message "Failed to fetch config"))).

(** Lines 171-189: [POST /api/config] ([runValidators] finds no validator in
    [configSchema]). *)
Definition post_config `{Platform} (salt : string) (req_body : object) : M response :=
  try_catch
    (let adminUsername := prop req_body "adminUsername" in
     let adminPassword := prop req_body "adminPassword" in
     let configData := delete "adminPassword" (delete "adminUsername" req_body) in
     let* currentConfig := Config_findOne in
     let* isValid :=
       (if is_Some_b currentConfig && truthy adminPassword then
          await (bcrypt_compare
                   (or_else (prop req_body "currentPassword") (VStr ""))
                   (or_else (doc_prop currentConfig "adminPassword") (VStr "")))
        else ret true) in
     if negb isValid then ret (json 401 (Message "Current password is incorrect"))
     else
       let* stored :=
         (if truthy adminPassword then
            let* hashed := await (bcrypt_hash salt adminPassword) in
            ret (VStr hashed)
          else ret (doc_prop currentConfig "adminPassword")) in
       let* updatedConfig :=
         Config_findOneAndUpdate
           (<["adminPassword" := stored]>
              (<["adminUsername" := adminUsername]> configData)) in
       ret (json 200 (ConfigDoc updatedConfig)))
    (ret (json 500 (Message "Failed to update config"))).




End Part002.

(** ** src/unnamed/part_003: the admin store *)

Module AdminStore.

Record AdminState : Type := {
  isAuthenticated : bool;
  config : object;
  blogPosts : list object;
  loading : bool;
  error : option string
}.

(** What [axios] did with a request: the promise resolved with the
    response's [data], or it rejected (transport error or a status outside
    2xx). *)
Inductive outcome : Type :=
| Resolved (data : value)
| Rejected (message : string).

Inductive method : Type := GET | POST | PUT | DELETE.

(** The server as the store sees it. *)
Definition transport : Type := method -> string -> option object -> outcome.

Definition API_BASE_URL : string := "https://api.uniunity.space".

(** [set({ loading: true, error: null })] *)
Definition begin (st : AdminState) : AdminState :=
  {| isAuthenticated := isAuthenticated st; config := config st;
     blogPosts := blogPosts st; loading := true; error := None |}.

(** [set({ error: msg, loading: false })] *)
Definition fail (msg : string) (st : AdminState) : AdminState :=
  {| isAuthenticated := isAuthenticated st; config := config st;
     blogPosts := blogPosts st; loading := false; error := Some msg |}.

(** Lines 818-829, up to the [await]: the merged config is computed from the
    config the store holds now, and is what is posted. *)
Definition updateConfig_request (fields : object) (st : AdminState) : object :=
  let currentConfig := config st in
  spread currentConfig fields.

(** Lines 824-828: after the [await], on the store as it is then. *)
Definition updateConfig_settle (updatedConfig : object) (r : outcome)
    (st : AdminState) : AdminState :=
  match r with
  | Resolved _ =>
      {| isAuthenticated := isAuthenticated st; config := updatedConfig;
         blogPosts := blogPosts st; loading := false; error := error st |}
  | Rejected _ => fail "Failed to update config" st
  end.

(** [updateConfig(fields)], with nothing else touching the store while the
    request is in flight. *)
Definition updateConfig (axios : transport) (fields : object) (st : AdminState)
  : AdminState :=
  let st1 := begin st in
  let updatedConfig := updateConfig_request fields st1 in
  updateConfig_settle updatedConfig
    (axios POST (API_BASE_URL +:+ "/api/config") (Some updatedConfig)) st1.

(** Lines 867-874: after the [await], on the store as it is then. *)
Definition deleteBlogPost_settle (id : string) (r : outcome) (st : AdminState)
  : AdminState :=
  match r with
  | Resolved _ =>
      {| isAuthenticated := isAuthenticated st; config := config st;
         blogPosts := List.filter (fun p => strict_ne_str (prop p "id") id)
                                  (blogPosts st);
         loading := false; error := error st |}
  | Rejected _ => fail "Failed to delete blog post" st
  end.

(** Lines 863-875: [deleteBlogPost(id)]. *)
Definition deleteBlogPost (axios : transport) (id : string) (st : AdminState)
  : AdminState :=
  let st1 := begin st in
  deleteBlogPost_settle id
    (axios DELETE (API_BASE_URL +:+ "/api/blogs/" +:+ id) None) st1.

End AdminStore.

(** ** A reference platform *)

(** One platform that meets the laws, for running the handlers on concrete
    requests: the hash is a version tag, the salt cut or padded to 22
    characters, and the password in clear; Mongoose is taken at version 6 or
    later. *)
Module Reference.

Fixpoint pad (n : nat) (s : string) : string :=
  match n with
  | O => ""
  | S n' =>
      match s with
      | EmptyString => String "." (pad n' "")
      | String c r => String c (pad n' r)
      end
  end.

Fixpoint skip (n : nat) (s : string) : option string :=
  match n with
  | O => Some s
  | S n' =>
      match s with
      | EmptyString => None
      | String _ r => skip n' r
      end
  end.

Definition tag : string := "$2b$10$".

Definition hash (salt data : string) : string := tag +:+ pad 22 salt +:+ data.

Fixpoint untag (t s : string) : option string :=
  match t with
  | EmptyString => Some s
  | String a t' =>
      match s with
      | EmptyString => None
      | String b s' => if Ascii.eqb a b then untag t' s' else None
      end
  end.

Definition compare (data h : string) : bool :=
  match untag tag h with
  | Some salted =>
      match skip 22 salted with
      | Some rest => String.eqb rest data
      | None => false
      end
  | None => false
  end.

Fixpoint known (keys : list string) (fields : list (string * value))
  : list (string * value) :=
  match fields with
  | [] => []
  | (k, v) :: rest =>
      if existsb (String.eqb k) keys && string_or_absent v && negb (is_absent v)
      then (k, v) :: known keys rest
      else known keys rest
  end.

Definition nested (keys : list string) (v : value) : option value :=
  match v with
  | VObj fields => Some (VObj (known keys fields))
  | VNull => Some VNull
  | _ => None
  end.

Definition loose {A : Type} (v : value) (docs : list A) : option (option A) :=
  match v with
  | VUndefined => Some (head docs)
  | VNull => Some None
  | _ => None
  end.

Lemma skip_pad (n : nat) (s rest : string) :
  skip n (pad n s +:+ rest) = Some rest.
Proof.
  revert s; induction n as [|n IH]; intros s; [reflexivity|].
  destruct s as [|c r]; simpl; apply IH.
Qed.

Lemma compare_hash (salt p q : string) :
  compare p (hash salt q) = true <-> p = q.
Proof.
  unfold compare, hash, tag.
  change (untag "$2b$10$" ("$2b$10$" +:+ pad 22 salt +:+ q))
    with (Some (pad 22 salt +:+ q)).
  cbv beta iota. rewrite skip_pad, String.eqb_eq. split; congruence.
Qed.

Lemma compare_empty (p : string) : compare p "" = false.
Proof. reflexivity. Qed.

#[export] Instance platform : Platform := {|
  bhash := hash;
  bcompare := compare;
  bcompare_bhash := compare_hash;
  bcompare_empty := compare_empty;
  omitUndefined := true;
  castNested := nested;
  findOneLoose := @loose
|}.

End Reference.


(** ** The other routes of the servers *)

(** The handlers below call three model methods more than the ones above
    ([Blog.find], [Blog.findByIdAndUpdate], [Admin.find]) and answer with
    lists and with [null].  They run in the same kind of monad, over a
    wider log and a wider answer. *)
Module Wide.

Inductive model_call : Type :=
| Logged (o : op)
| BlogFind
| BlogFindByIdAndUpdate (id : ObjectId) (update : object)
| AdminFind.

Definition W (A : Type) : Type := db -> option A * db * list model_call.

Definition ret {A} (a : A) : W A := fun s => (Some a, s, []).

Definition bind {A B} (m : W A) (f : A -> W B) : W B :=
  fun s =>
    match m s with
    | (Some a, s1, t1) =>
        match f a s1 with
        | (r, s2, t2) => (r, s2, t1 ++ t2)
        end
    | (None, s1, t1) => (None, s1, t1)
    end.

(** [try { m } catch (error) { h }] *)
Definition try_catch {A} (m : W A) (h : W A) : W A :=
  fun s =>
    match m s with
    | (None, s1, t1) =>
        match h s1 with
        | (r, s2, t2) => (r, s2, t1 ++ t2)
        end
    | done => done
    end.

Definition call {A} (c : model_call) (f : db -> option A * db) : W A :=
  fun s => match f s with (r, s1) => (r, s1, [c]) end.

(** A step of [M], with its log carried over. *)
Definition lift {A} (m : M A) : W A :=
  fun s => match m s with (r, s1, t) => (r, s1, List.map Logged t) end.

Definition result {A} (m : W A) (s : db) : option A := (m s).1.1.
Definition store {A} (m : W A) (s : db) : db := (m s).1.2.
Definition trace {A} (m : W A) (s : db) : list model_call := (m s).2.

(** What [res.json] is given. *)
Inductive wide_body : Type :=
| Body (b : payload)
| Posts (l : list (ObjectId * Blog))
| Admins (l : list Admin)
| Post (found : option (ObjectId * Blog)).

Record answer : Type := { wcode : nat; wbody : wide_body }.

Definition json (c : nat) (b : wide_body) : answer := {| wcode := c; wbody := b |}.

(** [Blog.find()]: every post; the order is the collection's. *)
Definition Blog_find : W (list (ObjectId * Blog)) :=
  call BlogFind (fun s => (Some (map_to_list (blogs s)), s)).

(** [Admin.find()] *)
Definition Admin_find : W (list Admin) :=
  call AdminFind (fun s => (Some (admins s), s)).

(** What an update does to a [String] path: leave it, or set it to a string
    or to [null].  A plain object does not cast. *)
Definition cast_set `{Platform} (v : value) : option (option (option string)) :=
  match v with
  | VStr s => Some (Some (Some s))
  | VNull => Some (Some None)
  | VUndefined => Some (if omitUndefined then None else Some None)
  | VObj _ => None
  end.

Definition set_field (u : option (option string)) (old : option string)
  : option string :=
  match u with
  | Some new => new
  | None => old
  end.

(** The [required] validator, run on a path the update sets. *)
Definition set_valid (u : option (option string)) : bool :=
  match u with
  | Some new => required new
  | None => true
  end.

(** [Blog.findByIdAndUpdate(id, update, { new: true })], with
    [runValidators: true] when [validators] is set: the update is cast and
    validated, then the post with that id, if there is one, gets the paths
    the update sets; the post after the update is the result, [null] when
    there is none.  Nothing is inserted. *)
Definition Blog_findByIdAndUpdate `{Platform} (validators : bool) (id : ObjectId)
    (update : object) : W (option Blog) :=
  call (BlogFindByIdAndUpdate id update)
       (fun s =>
          match cast_set (prop update "title"), cast_set (prop update "content"),
                cast_set (prop update "seoTitle"),
                cast_set (prop update "seoDescription") with
          | Some t, Some c, Some st, Some sd =>
              if validators && negb (set_valid t && set_valid c) then (None, s)
              else
                match blogs s !! id with
                | None => (Some None, s)
                | Some b =>
                    let b' := {| title := set_field t b.(title);
                                 content := set_field c b.(content);
                                 seoTitle := set_field st b.(seoTitle);
                                 seoDescription := set_field sd b.(seoDescription);
                                 createdAt := b.(createdAt);
                                 status := b.(status) |} in
                    (Some (Some b'), set_blogs (<[id := b']> (blogs s)) s)
                end
          | _, _, _, _ => (None, s)
          end).

(** [{ title, content, seoTitle, seoDescription }] *)
Definition blog_update (req_body : object) : object :=
  {[ "title" := prop req_body "title";
     "content" := prop req_body "content";
     "seoTitle" := prop req_body "seoTitle";
     "seoDescription" := prop req_body "seoDescription" ]}.

End Wide.

Declare Scope wide_scope.
Delimit Scope wide_scope with wide.
Notation "'let+' x ':=' m 'in' k" := (Wide.bind m (fun x => k))
  (at level 10, x name, m at level 100, k at level 200) : wide_scope.
Local Open Scope wide_scope.

(** *** src/backend/server.js, first document *)

Module ServerA_rest.
Import Wide.

(** Lines 87-94: [GET /api/blogs]. *)
Definition get_blogs : W answer :=
  try_catch
    (let+ blogs := Blog_find in
     ret (json 200 (Posts blogs)))
    (ret (json 500 (Body (Error "Failed to fetch blogs")))).

(** Lines 107-117: [PUT /api/blogs/:id]. *)
Definition put_blog `{Platform} (id : ObjectId) (req_body : object) : W answer :=
  try_catch
    (let+ blog := Blog_findByIdAndUpdate false id (blog_update req_body) in
     match blog with
     | None => ret (json 404 (Body (Error "Blog not found")))
     | Some b => ret (json 200 (Post (Some (id, b))))
     end)
    (ret (json 500 (Body (Error "Failed to update blog")))).

(** Lines 130-137: [GET /api/admins]. *)
Definition get_admins : W answer :=
  try_catch
    (let+ admins := Admin_find in
     ret (json 200 (Admins admins)))
    (ret (json 500 (Body (Error "Failed to fetch admins")))).

End ServerA_rest.

(** *** src/unnamed/part_000 *)

Module Part000_rest.

(** Lines 43-51: [POST /api/auth]; the handler has no [try], so a rejected
    promise leaves the request without an answer. *)
Definition auth `{Platform} (req_body : object) : M response :=
  (let username := prop req_body "username" in
   let password := prop req_body "password" in
   let* admin := Admin_findOne username in
   match admin with
   | Some a =>
       let* ok := await (bcrypt_compare password (VStr a.(Mongo.password))) in
       if ok then ret (json 200 (AuthResult true None))
       else ret (json 401 (AuthResult false (Some "Invalid credentials")))
   | None => ret (json 401 (AuthResult false (Some "Invalid credentials")))
   end)%handler.

(** Lines 86-91: [PUT /api/blogs/:id]; no [try] and no check of what was
    found. *)
Definition put_blog `{Platform} (id : ObjectId) (req_body : object)
  : Wide.W Wide.answer :=
  let+ blog := Wide.Blog_findByIdAndUpdate false id (Wide.blog_update req_body) in
  Wide.ret (Wide.json 200 (Wide.Post (option_map (pair id) blog))).

(** Lines 93-97: [POST /api/config]; no [try]. *)
Definition post_config `{Platform} (salt : string) (req_body : object) : M response :=
  (let adminUsername := prop req_body "adminUsername" in
   let adminPassword := prop req_body "adminPassword" in
   let configData := delete "adminPassword" (delete "adminUsername" req_body) in
   let* hashed := await (bcrypt_hash salt (or_else adminPassword (VStr ""))) in
   let* config :=
     Config_findOneAndUpdate
       (<["adminPassword" := VStr hashed]>
          (<["adminUsername" := adminUsername]> configData)) in
   ret (json 200 (ConfigDoc config)))%handler.

End Part000_rest.

(** *** src/unnamed/part_002 *)

Module Part002_rest.
Import Wide.

(** Lines 107-115: [GET /api/blogs]. *)
Definition get_blogs : W answer :=
  try_catch
    (let+ blogs := Blog_find in
     ret (json 200 (Posts blogs)))
    (ret (json 500 (Body (Message "Failed to fetch blogs")))).

(** Lines 132-146: [PUT /api/blogs/:id]. *)
Definition put_blog `{Platform} (id : ObjectId) (req_body : object) : W answer :=
  try_catch
    (let title := prop req_body "title" in
     let content := prop req_body "content" in
     if negb (truthy title) || negb (truthy content) then
       ret (json 400 (Body (Message "Title and content are required")))
     else
       let+ blog := Blog_findByIdAndUpdate true id (blog_update req_body) in
       match blog with
       | None => ret (json 404 (Body (Message "Blog not found")))
       | Some b => ret (json 200 (Post (Some (id, b))))
       end)
    (ret (json 500 (Body (Message "Failed to update blog")))).

End Part002_rest.

(** ** The rest of the admin store and the admin page *)

Module AdminStore_rest.
Import AdminStore.

(** What [axios] did with a request whose response the store reads: the
    promise resolved with [data], taken at the type the store gives it, or
    it rejected. *)
Inductive reply (A : Type) : Type :=
| Replied (data : A)
| Failed (message : string).
Arguments Replied {A} data.
Arguments Failed {A} message.

(** Lines 751-767. *)
Definition defaultConfig : object :=
  list_to_map
    [ ("title", VStr "UniUnity.space");
      ("favicon", VStr "/favicon.ico");
      ("banner",
       VObj [ ("heading", VStr "Future-Proof Your Growth with AI-Driven Tech");
              ("subtext", VStr "Empowering businesses with cutting-edge AI solutions and development services") ]);
      ("seo",
       VObj [ ("title", VStr "UniUnity.space - AI-Driven Tech Solutions");
              ("description", VStr "Leading provider of AI automation, website development, app development, and user acquisition services.");
              ("ogImage", VStr "https://images.unsplash.com/photo-1451187580459-43490279c0fa?auto=format&fit=crop&q=80") ]);
      ("homepageAd",
       VObj [ ("text", VStr "Transform your business with AI");
              ("image", VStr "https://images.unsplash.com/photo-1636819488524-1f019c4e1c44?auto=format&fit=crop&q=80") ]) ].

(** Lines 772-776: the store as it is created. *)
Definition initial : AdminState :=
  {| isAuthenticated := false; config := defaultConfig; blogPosts := [];
     loading := false; error := None |}.

(** Lines 778-797: [initialize()].  The two GETs are awaited together; the
    config's data is an object or [null], the posts' data a list or
    [null]. *)
Definition initialize (configResponse : reply (option object))
    (blogsResponse : reply (option (list object))) (st : AdminState) : AdminState :=
  let st1 := begin st in
  match configResponse, blogsResponse with
  | Replied c, Replied b =>
      {| isAuthenticated := isAuthenticated st1;
         config := default defaultConfig c;
         blogPosts := default [] b;
         loading := false; error := error st1 |}
  | _, _ => fail "Failed to load data from server. Please try again later." st1
  end.

(** Lines 799-814: [login(username, password)]; [response] carries what
    [response.data.success] tests as.  The second component is the value
    returned. *)
Definition login (response : reply bool) (st : AdminState) : AdminState * bool :=
  let st1 := begin st in
  match response with
  | Replied true =>
      ({| isAuthenticated := true; config := config st1;
          blogPosts := blogPosts st1; loading := false; error := error st1 |},
       true)
  | Replied false => (fail "Invalid credentials" st1, false)
  | Failed _ => (fail "Authentication failed" st1, false)
  end.

(** Line 816: [logout()]. *)
Definition logout (st : AdminState) : AdminState :=
  {| isAuthenticated := false; config := config st; blogPosts := blogPosts st;
     loading := loading st; error := error st |}.

(** Lines 834-837: the post that is sent, stamped with the time [now] on
    the client. *)
Definition addBlogPost_request (now : string) (post : object) : object :=
  <["createdAt" := VStr now]> post.

(** Lines 831-847: [addBlogPost(post)]. *)
Definition addBlogPost (response : reply object) (st : AdminState) : AdminState :=
  let st1 := begin st in
  match response with
  | Replied data =>
      {| isAuthenticated := isAuthenticated st1; config := config st1;
         blogPosts := blogPosts st1 ++ [data];
         loading := false; error := error st1 |}
  | Failed _ => fail "Failed to add blog post" st1
  end.

(** Lines 849-861: [updateBlogPost(id, post)]. *)
Definition updateBlogPost (id : string) (response : reply object)
    (st : AdminState) : AdminState :=
  let st1 := begin st in
  match response with
  | Replied data =>
      {| isAuthenticated := isAuthenticated st1; config := config st1;
         blogPosts := List.map (fun p => if negb (strict_ne_str (prop p "id") id)
                                         then data else p)
                               (blogPosts st1);
         loading := false; error := error st1 |}
  | Failed _ => fail "Failed to update blog post" st1
  end.

End AdminStore_rest.

(** *** src/unnamed/part_003, first document: the admin page *)

(** The page's strings are taken as ASCII text, one character a code unit;
    on such text [toLowerCase] is the map on the letters A-Z. *)
Module AdminPage.

Definition is_ascii (c : ascii) : bool := Nat.ltb (nat_of_ascii c) 128.

Fixpoint ascii_text (s : string) : bool :=
  match s with
  | EmptyString => true
  | String c r => is_ascii c && ascii_text r
  end.

Definition lower (c : ascii) : ascii :=
  let n := nat_of_ascii c in
  if Nat.leb 65 n && Nat.leb n 90 then ascii_of_nat (n + 32) else c.

(** [s.toLowerCase()] *)
Fixpoint toLowerCase (s : string) : string :=
  match s with
  | EmptyString => EmptyString
  | String c r => String (lower c) (toLowerCase r)
  end.

(** The characters a-z and 0-9. *)
Definition alnum (c : ascii) : bool :=
  let n := nat_of_ascii c in
  (Nat.leb 97 n && Nat.leb n 122) || (Nat.leb 48 n && Nat.leb n 57).

(** [.replace(/[^a-z0-9]+/g, '-')]: every maximal run of characters
    outside the class becomes one dash; [in_run] tells that the run the
    scan is in has its dash already. *)
Fixpoint dash_runs (in_run : bool) (s : string) : string :=
  match s with
  | EmptyString => EmptyString
  | String c r =>
      if alnum c then String c (dash_runs false r)
      else if in_run then dash_runs true r
      else String "-" (dash_runs true r)
  end.

(** A dash at the start. *)
Definition strip_leading_dash (s : string) : string :=
  match s with
  | String c r => if Ascii.eqb c "-" then r else s
  | EmptyString => s
  end.

(** A dash at the end. *)
Fixpoint strip_trailing_dash (s : string) : string :=
  match s with
  | EmptyString => EmptyString
  | String c EmptyString => if Ascii.eqb c "-" then EmptyString else s
  | String c r => String c (strip_trailing_dash r)
  end.

(** [.replace(/(^-|-$)/g, '')]: a dash at the start and a dash at the end
    are removed. *)
Definition strip_dashes (s : string) : string :=
  strip_trailing_dash (strip_leading_dash s).

(** Lines 71-74: [generatedSlug]. *)
Definition generatedSlug (debouncedTitle : string) : string :=
  strip_dashes (dash_runs false (toLowerCase debouncedTitle)).

(** Lines 69-78: what the effect does to the [slug] and [seoTitle] fields
    of the form once the title has settled. *)
Definition title_effect (debouncedTitle slug seoTitle : string) : string * string :=
  if negb (String.eqb debouncedTitle "") then
    (generatedSlug debouncedTitle,
     if String.eqb seoTitle "" then debouncedTitle +:+ " | UniUnity" else seoTitle)
  else (slug, seoTitle).

End AdminPage.

(** ** Vocabulary of the further properties *)

(** The keys of a stored config document are keys of the schema. *)
Definition schema_keys_only (c : option object) : Prop :=
  forall doc k, c = Some doc -> is_Some (doc !! k) ->
                In k (List.map fst configSchema).

(** What a rejected call leaves of the store: the data as it was, the
    loading flag down and the message up. *)
Definition failed_with (msg : string) (st st' : AdminStore.AdminState) : Prop :=
  AdminStore.isAuthenticated st' = AdminStore.isAuthenticated st /\
  AdminStore.config st' = AdminStore.config st /\
  AdminStore.blogPosts st' = AdminStore.blogPosts st /\
  AdminStore.loading st' = false /\
  AdminStore.error st' = Some msg.

(** Words over a-z and 0-9 joined by single dashes, or nothing at all.
    [after_dash] tells that the scan is at
    the start or just after a dash, where no dash may follow. *)
Fixpoint slug_shaped (after_dash : bool) (s : string) : bool :=
  match s with
  | EmptyString => true
  | String c r =>
      if Ascii.eqb c "-"
      then negb after_dash && negb (String.eqb r "") && slug_shaped true r
      else AdminPage.alnum c && slug_shaped false r
  end.

(** Characters of the class and dashes, no two dashes in a row; a dash may
    open the string only when [after_dash] is unset, and may close it. *)
Fixpoint dash_separated (after_dash : bool) (s : string) : bool :=
  match s with
  | EmptyString => true
  | String c r =>
      if Ascii.eqb c "-"
      then negb after_dash && dash_separated true r
      else AdminPage.alnum c && dash_separated false r
  end.

(** Some character of the string is a letter or a digit once lowered. *)
Fixpoint has_alnum (s : string) : bool :=
  match s with
  | EmptyString => false
  | String c r => AdminPage.alnum (AdminPage.lower c) || has_alnum r
  end.
(** * Properties *)

(** ** Authentication *)

Section Auth.
Context `{Platform}.

(** part_002 answers 400 before it touches the Admin model when a field is
    missing or empty. *)
Lemma Part002_auth_missing_field (req_body : object) (s : db) :
  truthy (prop req_body "username") = false \/
  truthy (prop req_body "password") = false ->
  Part002.auth req_body s =
    (Some (json 400 (AuthResult false (Some "Username and password are required"))),
     s, []).
Proof.
  intros Hmiss. unfold Part002.auth.
  destruct Hmiss as [-> | ->]; simpl; rewrite ?orb_true_r; reflexivity.
Qed.

(** C5.  server.js (first document, lines 52-64) has no check for missing
    fields: a request that carries a username and no password reaches
    [Admin.findOne], and the rejected [bcrypt.compare] is answered 500, not
    400. *)
Theorem ServerA_auth_missing_password_looks_up (salt : string) :
  let seeded := store (ServerA.seed salt) empty_db in
  ServerA.auth {[ "username" := VStr "admin" ]} seeded =
    (Some (json 500 (AuthResult false (Some "Authentication error"))),
     seeded, [AdminFindOne (VStr "admin")]).
Proof. vm_compute. reflexivity. Qed.

End Auth.

(** ** Blog posts *)

Section Blogs.

(** part_002 refuses a post without a title or without content. *)
Lemma Part002_post_blogs_missing_field (now : Z) (req_body : object) (s : db) :
  truthy (prop req_body "title") = false \/
  truthy (prop req_body "content") = false ->
  Part002.post_blogs now req_body s =
    (Some (json 400 (Message "Title and content are required")), s, []).
Proof.
  intros Hmiss. unfold Part002.post_blogs, try_catch.
  destruct Hmiss as [-> | ->]; simpl; rewrite ?orb_true_r; reflexivity.
Qed.

(** part_002 answers 201 with the new post, published and dated [now], when
    title and content are non-empty strings and the SEO fields are strings
    or absent. *)
Lemma Part002_post_blogs_created (now : Z) (req_body : object) (s : db)
    (t c : string) :
  prop req_body "title" = VStr t -> t <> "" ->
  prop req_body "content" = VStr c -> c <> "" ->
  string_or_absent (prop req_body "seoTitle") = true ->
  string_or_absent (prop req_body "seoDescription") = true ->
  exists b : Blog,
    result (Part002.post_blogs now req_body) s = Some (json 201 (BlogDoc (next_id s) b)) /\
    blogs (store (Part002.post_blogs now req_body) s) !! next_id s = Some b /\
    b.(title) = Some t /\ b.(content) = Some c /\
    b.(status) = "published" /\ b.(createdAt) = now.
Proof.
  intros Ht Hne Hc Hnc Hst Hsd.
  apply String.eqb_neq in Hne, Hnc.
  unfold Part002.post_blogs, try_catch, result, store, bind, new_Blog,
    Blog_save, call, ret, Part002.blog_valid, required.
  rewrite Ht, Hc. simpl. rewrite Hne, Hnc. simpl.
  destruct (prop req_body "seoTitle"), (prop req_body "seoDescription");
    try discriminate; simpl; rewrite Hne, Hnc; simpl;
    eexists; (split; [reflexivity|]); simpl;
    rewrite lookup_insert_eq; auto.
Qed.

(** C6.  server.js (first document, lines 96-105) neither validates the
    fields nor answers 201: an empty body creates a post with no title and no
    content, and the answer is 200. *)
Theorem ServerA_post_blogs_accepts_empty_body (now : Z) (s : db) :
  let untitled := {| title := None; content := None; seoTitle := None;
                     seoDescription := None; createdAt := now;
                     status := "published" |} in
  result (ServerA.post_blogs now ∅) s = Some (json 200 (BlogDoc (next_id s) untitled)) /\
  blogs (store (ServerA.post_blogs now ∅) s) !! next_id s = Some untitled.
Proof.
  split; [reflexivity|].
  unfold ServerA.post_blogs, store, try_catch, bind, new_Blog, Blog_save, call, ret.
  simpl. apply lookup_insert_eq.
Qed.

(** server.js (first document) answers 404 when no post has the id, and
    leaves the posts as they were. *)
Lemma ServerA_delete_blog_not_found (id : ObjectId) (s : db) :
  blogs s !! id = None ->
  result (ServerA.delete_blog id) s = Some (json 404 (Error "Blog not found")) /\
  blogs (store (ServerA.delete_blog id) s) = blogs s.
Proof.
  intros Hnone.
  unfold ServerA.delete_blog, result, store, try_catch, bind, Blog_findByIdAndDelete, call, ret.
  simpl. rewrite Hnone. simpl. split; [reflexivity|].
  by apply delete_id.
Qed.

(** server.js (first document): the second of two deletes finds nothing. *)
Lemma ServerA_delete_blog_twice (id : ObjectId) (s : db) (b : Blog) :
  blogs s !! id = Some b ->
  result (ServerA.delete_blog id) s = Some (json 200 (Message "Blog deleted")) /\
  result (ServerA.delete_blog id) (store (ServerA.delete_blog id) s)
    = Some (json 404 (Error "Blog not found")).
Proof.
  intros Hsome.
  unfold ServerA.delete_blog, result, store, try_catch, bind, Blog_findByIdAndDelete, call, ret.
  simpl. rewrite Hsome. simpl. rewrite lookup_delete_eq. auto.
Qed.

(** C7.  part_000 (line 92) does not look at what [findByIdAndDelete]
    found: every delete is answered 200 "Blog deleted", also on a store
    that holds no post at all, and also the second time. *)
Theorem Part000_delete_blog_always_succeeds (id : ObjectId) (s : db) :
  result (Part000.delete_blog id) empty_db = Some (json 200 (Message "Blog deleted")) /\
  result (Part000.delete_blog id) s = Some (json 200 (Message "Blog deleted")) /\
  result (Part000.delete_blog id) (store (Part000.delete_blog id) s)
    = Some (json 200 (Message "Blog deleted")).
Proof. repeat split. Qed.

End Blogs.

(** ** Reading the configuration *)

Section GetConfig.

Lemma defaultConfig_keys :
  dom Part001.defaultConfig
  = ({[ "title"; "favicon"; "banner"; "seo"; "homepageAd" ]} : gset string).
Proof.
  unfold Part001.defaultConfig. rewrite dom_list_to_map_L. simpl.
  set_solver.
Qed.

(** part_001 falls back to its [defaultConfig] when the collection is
    empty. *)
Lemma Part001_get_config_default (s : db) :
  config s = None ->
  result Part001.get_config s = Some (json 200 (ConfigDoc Part001.defaultConfig)) /\
  Part001.defaultConfig !! "title" = Some (VStr "UniUnity.space") /\
  dom Part001.defaultConfig
  = ({[ "title"; "favicon"; "banner"; "seo"; "homepageAd" ]} : gset string).
Proof.
  intros Hnone. split; [|split].
  - unfold Part001.get_config, result, bind, Config_findOne, call, ret. simpl.
    rewrite Hnone. unfold spread. by rewrite (right_id_L ∅ (∪)).
  - reflexivity.
  - apply defaultConfig_keys.
Qed.

(** C2.  server.js (first document, lines 139-146) answers the empty object
    when there is no config document: none of the five keys is present. *)
Theorem ServerA_get_config_empty_object :
  exists doc : object,
    result ServerA.get_config empty_db = Some (json 200 (ConfigDoc doc)) /\
    forall k, doc !! k = None.
Proof. exists ∅. split; [reflexivity|]. intros k. apply lookup_empty. Qed.

End GetConfig.

(** ** The admin store *)

Section Store.
Import AdminStore.

Lemma lookup_spread (a b : object) (k : string) :
  spread a b !! k = match b !! k with
                    | Some v => Some v
                    | None => a !! k
                    end.
Proof.
  unfold spread. rewrite lookup_union.
  destruct (b !! k), (a !! k); reflexivity.
Qed.

(** C9.  When the POST resolves, the store's config is the shallow merge of
    the config it held with [fields]: a key of [fields] takes the value
    given, every other key keeps its value.  The response's data plays no
    part: the store ends as it would with a server that answers nothing. *)
Theorem AdminStore_updateConfig_local_merge (axios : transport)
    (fields : object) (st : AdminState) (data : value) :
  axios POST (API_BASE_URL +:+ "/api/config") (Some (spread (config st) fields))
    = Resolved data ->
  let st' := updateConfig axios fields st in
  config st' = spread (config st) fields /\
  (forall k, config st' !! k = match fields !! k with
                               | Some v => Some v
                               | None => config st !! k
                               end) /\
  st' = updateConfig (fun _ _ _ => Resolved VUndefined) fields st.
Proof.
  intros Hpost. unfold updateConfig, updateConfig_request. simpl.
  rewrite Hpost. simpl. split; [reflexivity|]. split; [|reflexivity].
  intros k. apply lookup_spread.
Qed.

Lemma filter_sublist {A} (f : A -> bool) (l : list A) :
  sublist (List.filter f l) l.
Proof.
  induction l as [|x l IH]; simpl; [constructor|].
  destruct (f x); by constructor.
Qed.

Lemma strict_ne_str_false (v : value) (s : string) :
  strict_ne_str v s = false <-> v = VStr s.
Proof.
  destruct v as [| |t|fs]; simpl; try (split; discriminate).
  rewrite negb_false_iff, String.eqb_eq. split; congruence.
Qed.

(** C10.  When the DELETE resolves, the posts left are the posts held, in
    their order, without those whose [id] is the string given; a post that
    has no [id] key (one that carries only [_id]) stays. *)
Theorem AdminStore_deleteBlogPost_filters_by_id (axios : transport)
    (id : string) (st : AdminState) (data : value) :
  axios DELETE (API_BASE_URL +:+ "/api/blogs/" +:+ id) None = Resolved data ->
  let st' := deleteBlogPost axios id st in
  sublist (blogPosts st') (blogPosts st) /\
  (forall p, In p (blogPosts st') <->
             In p (blogPosts st) /\ p !! "id" <> Some (VStr id)) /\
  (forall p, In p (blogPosts st) -> p !! "id" = None -> In p (blogPosts st')).
Proof.
  intros Hdel. unfold deleteBlogPost. simpl. rewrite Hdel. simpl.
  assert (Hmem : forall p, In p (List.filter (fun p => strict_ne_str (prop p "id") id)
                                             (blogPosts st)) <->
                           In p (blogPosts st) /\ p !! "id" <> Some (VStr id)).
  { intros p. rewrite filter_In.
    assert (strict_ne_str (prop p "id") id = true <-> p !! "id" <> Some (VStr id))
      as ->; [|reflexivity].
    rewrite <- not_false_iff_true, strict_ne_str_false. unfold prop.
    destruct (p !! "id") as [v|]; split; intros Hne Heq;
      apply Hne; congruence. }
  split; [apply filter_sublist|]. split; [exact Hmem|].
  intros p Hin Hnone. apply Hmem. split; [exact Hin|]. by rewrite Hnone.
Qed.

End Store.

(** ** Casting an update *)

Section Cast.
Context `{Platform}.

Lemma castUpdate_nil (u : object) : castUpdate [] u = Some ∅.
Proof. reflexivity. Qed.

Lemma castUpdate_cons (k : string) (t : path_type)
    (rest : list (string * path_type)) (u : object) :
  castUpdate ((k, t) :: rest) u =
    match castUpdate rest u with
    | None => None
    | Some m =>
        match u !! k with
        | None => Some m
        | Some VUndefined =>
            Some (if omitUndefined then m else <[k := VNull]> m)
        | Some v =>
            match cast_path t v with
            | Some v' => Some (<[k := v']> m)
            | None => None
            end
        end
    end.
Proof. reflexivity. Qed.

Lemma castUpdate_lookup (schema : list (string * path_type)) (u m : object)
    (k : string) :
  castUpdate schema u = Some m ->
  m !! k = match path_of schema k with
           | None => None
           | Some t =>
               match u !! k with
               | None => None
               | Some VUndefined => if omitUndefined then None else Some VNull
               | Some v => cast_path t v
               end
           end.
Proof.
  revert m. induction schema as [|[k' t'] rest IH]; intros m Hcast.
  - rewrite castUpdate_nil in Hcast. by simplify_eq.
  - rewrite castUpdate_cons in Hcast. simpl.
    destruct (castUpdate rest u) as [m0|] eqn:Hrest; [|discriminate].
    specialize (IH m0 eq_refl).
    destruct (String.eqb_spec k' k) as [->|Hne].
    + destruct (u !! k) as [v|] eqn:Hu.
      * destruct v; simplify_eq/=;
          try (destruct (cast_path t' _) eqn:Hc; simplify_eq/=;
               by rewrite lookup_insert_eq).
        destruct omitUndefined; [|by rewrite lookup_insert_eq].
        rewrite IH. by destruct (path_of rest k).
      * simplify_eq. rewrite IH. by destruct (path_of rest k).
    + rewrite <- IH.
      destruct (u !! k') as [v|]; [|by simplify_eq].
      destruct v; simplify_eq/=;
        try (destruct (cast_path t' _); simplify_eq/=; by rewrite lookup_insert_ne).
      destruct omitUndefined; [done|by rewrite lookup_insert_ne].
Qed.

Lemma castUpdate_conforms (schema : list (string * path_type)) (u : object) :
  conforms schema u = true -> is_Some (castUpdate schema u).
Proof.
  unfold conforms. induction schema as [|[k t] rest IH]; simpl; [by eexists|].
  intros [Hk Hrest]%andb_true_iff. rewrite castUpdate_cons.
  destruct (IH Hrest) as [m ->].
  destruct (u !! k) as [v|]; [|by eexists].
  destruct v; try by eexists.
  all: destruct (cast_path t _); [by eexists|discriminate].
Qed.

(** An update that casts has, under every key of the schema, a value that
    casts to the key's type. *)
Lemma castUpdate_casts (schema : list (string * path_type)) (u m : object)
    (k : string) (t : path_type) (v : value) :
  castUpdate schema u = Some m -> In (k, t) schema ->
  u !! k = Some v -> v <> VUndefined -> is_Some (cast_path t v).
Proof.
  revert m. induction schema as [|[k' t'] rest IH]; intros m Hcast Hin Hu Hv;
    [by destruct Hin|].
  rewrite castUpdate_cons in Hcast.
  destruct (castUpdate rest u) as [m0|] eqn:Hrest; [|discriminate].
  destruct Hin as [[= -> ->]|Hin]; [|by eapply IH].
  rewrite Hu in Hcast.
  destruct (cast_path t v); [by eexists|].
  by destruct v.
Qed.

(** The upsert: the cast update laid over the document there was. *)
Lemma Config_findOneAndUpdate_cast (u m : object) (s : db) :
  castUpdate configSchema u = Some m ->
  result (Config_findOneAndUpdate u) s = Some (m ∪ default ∅ (config s)) /\
  config (store (Config_findOneAndUpdate u) s) = Some (m ∪ default ∅ (config s)).
Proof.
  intros Hcast. unfold result, store, Config_findOneAndUpdate, call.
  by rewrite Hcast.
Qed.

End Cast.


(** ** What a handler preserves *)

Section Preserves.
Context (I : db -> Prop).

Lemma preserves_ret {A} (a : A) : preserves I (ret a).
Proof. by intros s. Qed.

Lemma preserves_throw {A} : preserves I (@throw A).
Proof. by intros s. Qed.

Lemma preserves_await {A} (p : option A) : preserves I (await p).
Proof. destruct p; by intros s. Qed.

Lemma preserves_bind {A C} (m : M A) (k : A -> M C) :
  preserves I m -> (forall a, preserves I (k a)) -> preserves I (bind m k).
Proof.
  intros Hm Hk s Hs. specialize (Hm s Hs). unfold store, bind in *.
  destruct (m s) as [[[a|] s1] t1]; simpl in *; [|done].
  specialize (Hk a s1 Hm). unfold store in Hk.
  by destruct (k a s1) as [[r s2] t2].
Qed.

Lemma preserves_try_catch {A} (m h : M A) :
  preserves I m -> preserves I h -> preserves I (try_catch m h).
Proof.
  intros Hm Hh s Hs. specialize (Hm s Hs). unfold store, try_catch in *.
  destruct (m s) as [[[a|] s1] t1]; simpl in *; [done|].
  specialize (Hh s1 Hm). unfold store in Hh.
  by destruct (h s1) as [[r s2] t2].
Qed.

Lemma preserves_call {A} (o : op) (g : db -> option A * db) :
  (forall s, I s -> I (g s).2) -> preserves I (call o g).
Proof.
  intros Hg s Hs. specialize (Hg s Hs). unfold store, call.
  by destruct (g s).
Qed.

End Preserves.

Section PreservesModel.
Context `{Platform}.

(** Reads preserve everything. *)
Lemma Admin_findOne_preserves (I : db -> Prop) (v : value) :
  preserves I (Admin_findOne v).
Proof. by apply preserves_call. Qed.

Lemma Admin_countDocuments_preserves (I : db -> Prop) (e : string) :
  preserves I (Admin_countDocuments e).
Proof. by apply preserves_call. Qed.

Lemma Config_findOne_preserves (I : db -> Prop) : preserves I Config_findOne.
Proof. by apply preserves_call. Qed.

(** Writes to one collection preserve what is said of another. *)
Lemma Admin_create_preserves_config (P : option object -> Prop) (a : Admin) :
  preserves (fun s => P (config s)) (Admin_create a).
Proof. by apply preserves_call. Qed.

Lemma Config_findOneAndUpdate_preserves_admins (P : list Admin -> Prop) (u : object) :
  preserves (fun s => P (admins s)) (Config_findOneAndUpdate u).
Proof. apply preserves_call. intros s. by destruct (castUpdate configSchema u). Qed.

Lemma new_Blog_preserves_config (P : option object -> Prop) (now : Z)
    (t c st sd : value) :
  preserves (fun s => P (config s)) (new_Blog now t c st sd).
Proof. by intros s. Qed.

Lemma Blog_save_preserves_config (P : option object -> Prop)
    (valid : Blog -> bool) (doc : ObjectId * option Blog) :
  preserves (fun s => P (config s)) (Blog_save valid doc).
Proof.
  apply preserves_call. intros s. destruct (snd doc) as [b|]; [|done].
  by destruct (valid b).
Qed.

Lemma Blog_findByIdAndDelete_preserves_config (P : option object -> Prop)
    (id : ObjectId) :
  preserves (fun s => P (config s)) (Blog_findByIdAndDelete id).
Proof. by apply preserves_call. Qed.

End PreservesModel.

Create HintDb preserves.
#[export] Hint Resolve preserves_ret preserves_throw preserves_await
  Admin_findOne_preserves Admin_countDocuments_preserves Config_findOne_preserves
  Admin_create_preserves_config Config_findOneAndUpdate_preserves_admins
  new_Blog_preserves_config Blog_save_preserves_config
  Blog_findByIdAndDelete_preserves_config
  : preserves.

(** Walks a handler along its binds and branches. *)
Ltac preserves_walk :=
  repeat first
    [ apply preserves_try_catch
    | apply preserves_bind
    | progress intros
    | solve [ eauto with preserves ]
    | match goal with
      | |- preserves _ (if ?b then _ else _) => destruct b
      | |- preserves _ (match ?x with _ => _ end) => destruct x
      end ].

Section Frame.
Context `{Platform}.



Lemma Part002_auth_preserves (I : db -> Prop) (req_body : object) :
  preserves I (Part002.auth req_body).
Proof. unfold Part002.auth. preserves_walk. Qed.





End Frame.

(** ** The Config Service *)

Section ConfigUpdate.
Context `{Platform}.

Lemma lookup_config_update (req_body : object) (stored : value) (k : string) :
  config_update req_body stored !! k =
    if decide (k = "adminPassword") then Some stored
    else if decide (k = "adminUsername") then Some (prop req_body "adminUsername")
    else req_body !! k.
Proof.
  unfold config_update.
  destruct (decide (k = "adminPassword")) as [->|Hp]; [by rewrite lookup_insert_eq|].
  rewrite lookup_insert_ne by done.
  destruct (decide (k = "adminUsername")) as [->|Hu]; [by rewrite lookup_insert_eq|].
  by rewrite lookup_insert_ne, !lookup_delete_ne by done.
Qed.

(** What the cast update holds under [adminPassword]. *)
Lemma castUpdate_adminPassword (req_body m : object) (stored : value) :
  castUpdate configSchema (config_update req_body stored) = Some m ->
  m !! "adminPassword" =
    match stored with
    | VUndefined => if omitUndefined then None else Some VNull
    | VNull => Some VNull
    | VStr h => Some (VStr h)
    | VObj _ => None
    end.
Proof.
  intros Hcast. rewrite (castUpdate_lookup _ _ _ _ Hcast).
  rewrite lookup_config_update. simpl. by destruct stored.
Qed.

(** A stored hash that does not cast to [String] fails the whole update. *)
Lemma castUpdate_adminPassword_casts (req_body m : object)
    (fields : list (string * value)) :
  castUpdate configSchema (config_update req_body (VObj fields)) <> Some m.
Proof.
  intros Hcast.
  destruct (castUpdate_casts _ _ _ "adminPassword" PString (VObj fields) Hcast)
    as [v Hv]; try done.
  - unfold configSchema. simpl. tauto.
  - by rewrite lookup_config_update.
Qed.

(** The upsert keeps [adminPassword] a string or [null]. *)
Lemma Config_findOneAndUpdate_preserves_wf (u : object) :
  preserves (fun s => config_wf (config s)) (Config_findOneAndUpdate u).
Proof.
  apply preserves_call. intros s Hwf.
  destruct (castUpdate configSchema u) as [m|] eqn:Hcast; [|exact Hwf].
  intros doc v [= <-] Hv. simpl in Hv.
  apply lookup_union_Some_raw in Hv as [Hv | [_ Hv]].
  - rewrite (castUpdate_lookup _ _ _ _ Hcast) in Hv. simpl in Hv.
    destruct (u !! "adminPassword") as [w|]; [|discriminate].
    destruct w; simplify_eq/=; try done.
    by destruct omitUndefined; simplify_eq.
  - destruct (config s) as [old|] eqn:Hold; simpl in Hv; [by eapply Hwf|].
    by rewrite lookup_empty in Hv.
Qed.

End ConfigUpdate.

#[export] Hint Resolve Config_findOneAndUpdate_preserves_wf : preserves.

Section ConfigInvariant.
Context `{Platform}.



End ConfigInvariant.

Section ConfigRuns.
Context `{Platform}.

(** part_002, no new password: the stored hash is passed through. *)
Lemma Part002_post_config_no_password (salt : string) (req_body : object) (s : db) :
  truthy (prop req_body "adminPassword") = false ->
  Part002.post_config salt req_body s =
    upsert_outcome (Message "Failed to update config") [ConfigFindOne]
      (config_update req_body (doc_prop (config s) "adminPassword")) s.
Proof.
  intros Hno. unfold Part002.post_config, upsert_outcome, config_update.
  unfold try_catch, bind, Config_findOne, Config_findOneAndUpdate, call, ret.
  cbv zeta. cbv beta iota. rewrite Hno, andb_false_r. simpl.
  by destruct (castUpdate configSchema _).
Qed.


(** part_002, the gate: a document is there, a new password is asked for,
    and the current password does not verify. *)
Lemma Part002_post_config_rejected (salt : string) (req_body doc : object) (s : db) :
  config s = Some doc -> truthy (prop req_body "adminPassword") = true ->
  bcrypt_compare (or_else (prop req_body "currentPassword") (VStr ""))
                 (or_else (prop doc "adminPassword") (VStr "")) = Some false ->
  Part002.post_config salt req_body s =
    (Some (json 401 (Message "Current password is incorrect")), s, [ConfigFindOne]).
Proof.
  intros Hdoc Hnew Hcmp. unfold Part002.post_config.
  unfold try_catch, bind, Config_findOne, call, ret.
  cbv zeta. cbv beta iota. rewrite Hnew, Hdoc. simpl. by rewrite Hcmp.
Qed.

(** server.js, first document: whatever the request, a fresh hash is
    stored, of the empty string when no password is given. *)
Lemma ServerA_post_config_no_password (salt : string) (req_body : object) (s : db) :
  truthy (prop req_body "adminPassword") = false ->
  ServerA.post_config salt req_body s =
    upsert_outcome (Error "Failed to update config") []
      (config_update req_body (VStr (bhash salt ""))) s.
Proof.
  intros Hno. unfold ServerA.post_config, upsert_outcome, config_update, or_else.
  unfold try_catch, bind, Config_findOneAndUpdate, call, ret.
  cbv zeta. cbv beta iota. rewrite Hno. simpl.
  by destruct (castUpdate configSchema _).
Qed.

End ConfigRuns.

Section Rotation.
Context `{Platform}.




(** The seed on an empty database creates the one admin. *)
Lemma ServerA_seed_empty (salt : string) :
  store (ServerA.seed salt) empty_db =
    set_admins [ {| email := "admin";
                    password := bhash salt "UniUnity2025!" |} ] empty_db.
Proof. reflexivity. Qed.


End Rotation.


Section Gate.
Context `{Platform}.

Lemma configSchema_adminPassword (t : path_type) :
  In ("adminPassword", t) configSchema -> t = PString.
Proof.
  unfold configSchema. simpl. intros Hin.
  repeat (destruct Hin as [Heq|Hin]; [by simplify_eq|]). by destruct Hin.
Qed.

(** A request that conforms to the schema still does once the handler has
    put a hash, [null] or nothing under [adminPassword]. *)
Lemma conforms_config_update (req_body : object) (stored : value) :
  conforms configSchema req_body = true ->
  string_or_absent stored = true ->
  conforms configSchema (config_update req_body stored) = true.
Proof.
  unfold conforms. rewrite !forallb_forall.
  intros Hbody Hstored [k t] Hin. specialize (Hbody (k, t) Hin). simpl in *.
  rewrite lookup_config_update.
  destruct (decide (k = "adminPassword")) as [->|_].
  { apply configSchema_adminPassword in Hin as ->. by destruct stored. }
  destruct (decide (k = "adminUsername")) as [->|_]; [|done].
  unfold prop. by destruct (req_body !! "adminUsername").
Qed.


(** The second document of server.js has the same handler. *)
Lemma ServerB_post_config_eq (salt : string) (req_body : object) :
  ServerB.post_config salt req_body = Part002.post_config salt req_body.
Proof. reflexivity. Qed.

End Gate.


Section Merge.
Context `{Platform}.

Lemma path_of_In (schema : list (string * path_type)) (k : string) (t : path_type) :
  path_of schema k = Some t -> In (k, t) schema.
Proof.
  induction schema as [|[k' t'] rest IH]; simpl; [discriminate|].
  destruct (String.eqb_spec k' k) as [->|_]; [intros [= ->]; by left|].
  intros Hrest. right. by apply IH.
Qed.

(** The document after an update that carries no new password, key by key
    (Mongoose 6 and later): the stored hash is what it was; a key of the
    schema that the request gives takes the value given, cast; every other
    key keeps its value. *)
Lemma no_password_update_lookup (req_body m : object) (s : db) (k : string) :
  omitUndefined = true ->
  castUpdate configSchema
    (config_update req_body (doc_prop (config s) "adminPassword")) = Some m ->
  (m ∪ default ∅ (config s)) !! k =
    if decide (k = "adminPassword") then default ∅ (config s) !! k
    else match path_of configSchema k, req_body !! k with
         | Some t, Some VUndefined => default ∅ (config s) !! k
         | Some t, Some v => cast_path t v
         | _, _ => default ∅ (config s) !! k
         end.
Proof.
  intros Homit Hcast. rewrite lookup_union.
  destruct (decide (k = "adminPassword")) as [->|Hk].
  - rewrite (castUpdate_adminPassword _ _ _ Hcast), Homit.
    assert (doc_prop (config s) "adminPassword"
            = prop (default ∅ (config s)) "adminPassword") as ->
      by by destruct (config s).
    unfold prop in *.
    by destruct (default ∅ (config s) !! "adminPassword") as [[]|].
  - assert (config_update req_body (doc_prop (config s) "adminPassword") !! k
            = match req_body !! k with
              | Some v => Some v
              | None => if decide (k = "adminUsername") then Some VUndefined
                        else None
              end) as Hu.
    { rewrite lookup_config_update, decide_False by done. unfold prop.
      destruct (decide (k = "adminUsername")) as [->|_];
        by destruct (req_body !! _). }
    rewrite (castUpdate_lookup _ _ _ _ Hcast), Hu, Homit.
    destruct (path_of configSchema k) as [t|] eqn:Ht;
      [|by destruct (default ∅ (config s) !! k)].
    destruct (req_body !! k) as [v|] eqn:Hv.
    + assert (v = VUndefined \/ v <> VUndefined) as [->|Hdef]
        by (destruct v; auto).
      { by destruct (default ∅ (config s) !! k). }
      destruct (castUpdate_casts _ _ _ k t v Hcast) as [v' Hv'];
        [by apply path_of_In | by rewrite Hu | done |].
      rewrite Hv'. by destruct v, (default ∅ (config s) !! k).
    + by destruct (decide (k = "adminUsername")),
                  (default ∅ (config s) !! k).
Qed.

End Merge.

Section StoredHash.
Context `{Platform}.

(** part_002 (and the second document of server.js): an update that
    carries no new password leaves the stored hash as it was, whatever else
    the request holds; when it is answered 200, the fields it gives are
    merged key by key and the rest of the document is kept. *)
Lemma Part002_post_config_keeps_hash (salt : string) (req_body : object) (s : db) :
  omitUndefined = true ->
  truthy (prop req_body "adminPassword") = false ->
  let s' := store (Part002.post_config salt req_body) s in
  doc_prop (config s') "adminPassword" = doc_prop (config s) "adminPassword" /\
  forall doc, result (Part002.post_config salt req_body) s
              = Some (json 200 (ConfigDoc doc)) ->
    forall k, k <> "adminPassword" ->
      doc !! k = match path_of configSchema k, req_body !! k with
                 | Some t, Some VUndefined => default ∅ (config s) !! k
                 | Some t, Some v => cast_path t v
                 | _, _ => default ∅ (config s) !! k
                 end.
Proof.
  intros Homit Hno. unfold result, store.
  rewrite (Part002_post_config_no_password salt req_body s Hno).
  unfold upsert_outcome.
  destruct (castUpdate configSchema _) as [m|] eqn:Hcast; simpl;
    [|split; [done|discriminate]].
  split.
  - unfold prop.
    rewrite (no_password_update_lookup _ _ _ "adminPassword" Homit Hcast).
    rewrite decide_True by done. by destruct (config s).
  - intros doc [= <-] k Hk.
    rewrite (no_password_update_lookup _ _ _ k Homit Hcast).
    by rewrite decide_False.
Qed.

(** server.js, first document: an update that carries no new password
    stores a fresh hash of the empty string. *)
Lemma ServerA_post_config_overwrites_hash (salt : string) (req_body : object)
    (s : db) :
  truthy (prop req_body "adminPassword") = false ->
  conforms configSchema req_body = true ->
  doc_prop (config (store (ServerA.post_config salt req_body) s)) "adminPassword"
    = VStr (bhash salt "").
Proof.
  intros Hno Hconf. unfold store.
  rewrite (ServerA_post_config_no_password salt req_body s Hno).
  unfold upsert_outcome.
  destruct (castUpdate_conforms configSchema
              (config_update req_body (VStr (bhash salt "")))) as [m Hcast];
    [by apply conforms_config_update|].
  rewrite Hcast. simpl. unfold prop.
  rewrite (lookup_union_Some_l _ _ _ (VStr (bhash salt ""))); [done|].
  by rewrite (castUpdate_adminPassword _ _ _ Hcast).
Qed.

(** C4.  server.js (first document, lines 148-160) hashes
    [adminPassword || ''] on every update.  A store that holds the hash of
    "secret", a request that only sets the title: afterwards the stored
    hash is a hash of the empty string, it is not the hash held before, and
    "secret" no longer verifies against it. *)
Theorem ServerA_post_config_replaces_hash (salt0 salt : string) :
  let held : object := {[ "adminPassword" := VStr (bhash salt0 "secret") ]} in
  let s := set_config (Some held) empty_db in
  let s' := store (ServerA.post_config salt {[ "title" := VStr "X" ]}) s in
  doc_prop (config s) "adminPassword" = VStr (bhash salt0 "secret") /\
  doc_prop (config s') "adminPassword" = VStr (bhash salt "") /\
  bhash salt "" <> bhash salt0 "secret" /\
  bcompare "secret" (bhash salt "") = false.
Proof.
  intros held s s'. split; [reflexivity|]. split; [|split].
  - by apply ServerA_post_config_overwrites_hash.
  - intros Heq.
    assert (bcompare "" (bhash salt0 "secret") = true) as Hcmp
      by (rewrite <- Heq; by apply bcompare_bhash).
    by apply bcompare_bhash in Hcmp.
  - destruct (bcompare "secret" (bhash salt "")) eqn:Hcmp; [|done].
    by apply bcompare_bhash in Hcmp.
Qed.



End StoredHash.


(** C9 on a store that holds a title and a favicon, a server that answers a
    document of its own, and an update of the title alone. *)
Lemma AdminStore_updateConfig_local_merge_witness :
  let st := {| AdminStore.isAuthenticated := true;
               AdminStore.config := {[ "title" := VStr "Old";
                                       "favicon" := VStr "/favicon.ico" ]};
               AdminStore.blogPosts := [];
               AdminStore.loading := false;
               AdminStore.error := None |} in
  let axios : AdminStore.transport :=
    fun _ _ _ => AdminStore.Resolved (VObj [("title", VStr "Server")]) in
  let st' := AdminStore.updateConfig axios {[ "title" := VStr "New" ]} st in
  AdminStore.config st' !! "title" = Some (VStr "New") /\
  AdminStore.config st' !! "favicon" = Some (VStr "/favicon.ico").
Proof.
  intros st axios st'.
  destruct (AdminStore_updateConfig_local_merge axios {[ "title" := VStr "New" ]}
              st (VObj [("title", VStr "Server")]) eq_refl) as (_ & Hkeys & _).
  split; [exact (Hkeys "title") | exact (Hkeys "favicon")].
Defined.

(** C10 on a list of three posts: one with the id deleted, one with another
    id, one with an [_id] only. *)
Lemma AdminStore_deleteBlogPost_filters_by_id_witness :
  let gone : object := {[ "id" := VStr "a1"; "title" := VStr "First" ]} in
  let other : object := {[ "id" := VStr "b2"; "title" := VStr "Second" ]} in
  let mongo : object := {[ "_id" := VStr "a1"; "title" := VStr "Third" ]} in
  let st := {| AdminStore.isAuthenticated := true;
               AdminStore.config := ∅;
               AdminStore.blogPosts := [gone; other; mongo];
               AdminStore.loading := false;
               AdminStore.error := None |} in
  let axios : AdminStore.transport :=
    fun _ _ _ => AdminStore.Resolved (VObj [("message", VStr "Blog deleted")]) in
  In mongo (AdminStore.blogPosts (AdminStore.deleteBlogPost axios "a1" st)) /\
  ~ In gone (AdminStore.blogPosts (AdminStore.deleteBlogPost axios "a1" st)).
Proof.
  intros gone other mongo st axios.
  destruct (AdminStore_deleteBlogPost_filters_by_id axios "a1" st
              (VObj [("message", VStr "Blog deleted")]) eq_refl)
    as (_ & Hmem & Hkept).
  split.
  - apply Hkept; [simpl; tauto | reflexivity].
  - intros Hin. apply Hmem in Hin as [_ Hid]. by apply Hid.
Defined.

(** * More properties of the servers *)

(** ** The admin seed and authentication *)

Section SeedAuth.
Context `{Platform}.

(** X1.  The seed never duplicates the admin: after it the store holds one
    "admin" document when it held none, and as many as before otherwise; a
    store that already has one is left exactly as it was (the password is
    not reset), so seeding twice is seeding once. *)
Theorem ServerA_seed_idempotent (salt salt' : string) (s : db) :
  let count := fun s => length (List.filter (has_email "admin") (admins s)) in
  let s1 := store (ServerA.seed salt) s in
  count s1 = Nat.max 1 (count s) /\
  (count s <> 0 -> s1 = s) /\
  store (ServerA.seed salt') s1 = s1.
Proof.
  intros count s1.
  assert (Hrun : forall salt s,
             store (ServerA.seed salt) s =
               if Nat.eqb (count s) 0
               then set_admins (admins s ++ [ {| email := "admin";
                                                 password := bhash salt "UniUnity2025!" |} ]) s
               else s).
  { intros salt0 s0. unfold ServerA.seed, store, try_catch, bind,
      Admin_countDocuments, Admin_create, call, await, bcrypt_hash, ret.
    cbv zeta. cbv beta iota. subst count. cbv beta.
    by destruct (Nat.eqb _ 0). }
  assert (Hcount : count s1 = Nat.max 1 (count s)).
  { subst s1. rewrite Hrun. destruct (Nat.eqb_spec (count s) 0) as [Hz|Hnz].
    - subst count. cbv beta in *. simpl. rewrite List.filter_app, length_app, Hz.
      reflexivity.
    - lia. }
  split; [exact Hcount|]. split.
  - intros Hnz. subst s1. rewrite Hrun.
    by destruct (Nat.eqb_spec (count s) 0).
  - rewrite Hrun. destruct (Nat.eqb_spec (count s1) 0) as [Hz|]; [lia|done].
Qed.



(** X3.  Authentication never writes: whatever the request, and whether it
    is answered 200, 400, 401 or 500, the store afterwards is the store
    before (both versions of the handler). *)
Theorem auth_is_read_only (req_body : object) (s : db) :
  store (ServerA.auth req_body) s = s /\
  store (Part002.auth req_body) s = s.
Proof.
  split.
  - assert (preserves (fun s' => s' = s) (ServerA.auth req_body)) as Hp
      by (unfold ServerA.auth; preserves_walk).
    by apply Hp.
  - by apply (Part002_auth_preserves (fun s' => s' = s)).
Qed.

End SeedAuth.


(** ** More of the Config Service *)

Section ConfigMore.
Context `{Platform}.

(** Every way [POST /api/config] of part_002 can end. *)
Lemma Part002_post_config_cases (salt : string) (req_body : object) (s : db) :
  (exists t, Part002.post_config salt req_body s
             = (Some (json 401 (Message "Current password is incorrect")), s, t)) \/
  (exists t, Part002.post_config salt req_body s
             = (Some (json 500 (Message "Failed to update config")), s, t)) \/
  (exists u m t,
      castUpdate configSchema u = Some m /\
      Part002.post_config salt req_body s
      = (Some (json 200 (ConfigDoc (m ∪ default ∅ (config s)))),
         set_config (Some (m ∪ default ∅ (config s))) s, t)).
Proof.
  unfold Part002.post_config.
  unfold try_catch, bind, Config_findOne, Config_findOneAndUpdate, call, ret, await.
  cbv zeta. cbv beta iota.
  destruct (is_Some_b (config s) && truthy (prop req_body "adminPassword")).
  - destruct (bcrypt_compare _ _) as [[]|]; simpl; [| left | right; left]; eauto.
    destruct (truthy (prop req_body "adminPassword")); simpl.
    + destruct (bcrypt_hash salt _) as [h|]; simpl; [|right; left; eauto].
      destruct (castUpdate configSchema _) as [m|] eqn:Hcast; simpl;
        right; [right|left]; eauto 10.
    + destruct (castUpdate configSchema _) as [m|] eqn:Hcast; simpl;
        right; [right|left]; eauto 10.
  - simpl. destruct (truthy (prop req_body "adminPassword")); simpl.
    + destruct (bcrypt_hash salt _) as [h|]; simpl; [|right; left; eauto].
      destruct (castUpdate configSchema _) as [m|] eqn:Hcast; simpl;
        right; [right|left]; eauto 10.
    + destruct (castUpdate configSchema _) as [m|] eqn:Hcast; simpl;
        right; [right|left]; eauto 10.
Qed.

(** X4.  [POST /api/config] of part_002 always answers, with 200, 401 or
    500, and writes all or nothing: on 200 the store's config document is
    the document answered and a following [GET /api/config] answers the
    same document; on 401 and 500 the store is exactly as it was. *)
Theorem Part002_post_config_all_or_nothing (salt : string) (req_body : object)
    (s : db) :
  let s' := store (Part002.post_config salt req_body) s in
  exists r : response,
    result (Part002.post_config salt req_body) s = Some r /\
    ((r.(code) = 200 /\
      exists doc, r.(body) = ConfigDoc doc /\ s' = set_config (Some doc) s /\
                  result Part002.get_config s' = Some (json 200 (ConfigDoc doc))) \/
     ((r.(code) = 401 \/ r.(code) = 500) /\ s' = s)).
Proof.
  intros s'. subst s'. unfold result, store.
  destruct (Part002_post_config_cases salt req_body s)
    as [[t ->] | [[t ->] | (u & m & t & _ & ->)]]; simpl;
    eexists; (split; [reflexivity|]); simpl.
  - right. auto.
  - right. auto.
  - left. split; [done|]. eexists. by repeat split.
Qed.



(** X6.  part_002, a config document that holds no password hash (none,
    [null] or the empty string), as an update without a password on an
    empty store leaves it: every request that sets a new password is
    answered 401, whatever current password it carries, because the current
    password is compared with the empty string, which is no hash.  No
    password can be set through this route any more. *)
Theorem Part002_no_hash_refuses_every_rotation (salt c : string)
    (req_body doc : object) (s : db) :
  config s = Some doc -> truthy (prop doc "adminPassword") = false ->
  truthy (prop req_body "adminPassword") = true ->
  or_else (prop req_body "currentPassword") (VStr "") = VStr c ->
  Part002.post_config salt req_body s =
    (Some (json 401 (Message "Current password is incorrect")), s, [ConfigFindOne]).
Proof.
  intros Hdoc Hheld Hnew Hcur.
  apply (Part002_post_config_rejected salt req_body doc s Hdoc Hnew).
  unfold or_else at 2. rewrite Hheld, Hcur. simpl. by rewrite bcompare_empty.
Qed.

(** server.js (first document), a request with a password. *)
Lemma ServerA_post_config_with_password (salt : string) (req_body : object)
    (s : db) (p : string) :
  prop req_body "adminPassword" = VStr p -> p <> "" ->
  ServerA.post_config salt req_body s =
    upsert_outcome (Error "Failed to update config") []
      (config_update req_body (VStr (bhash salt p))) s.
Proof.
  intros Hp Hne%String.eqb_neq.
  unfold ServerA.post_config, upsert_outcome, config_update, or_else.
  unfold try_catch, bind, Config_findOneAndUpdate, call, ret.
  cbv zeta. cbv beta iota. rewrite Hp. simpl. rewrite Hne. simpl.
  by destruct (castUpdate configSchema _).
Qed.

(** X7.  server.js (first document) and part_000 have no gate: a request
    that sets a password is accepted on every store, whatever hash the
    store holds and whatever current password the request carries or
    omits; the hash stored afterwards verifies the new password. *)
Theorem ServerA_rotation_is_ungated (salt p : string) (req_body : object) (s : db) :
  prop req_body "adminPassword" = VStr p -> p <> "" ->
  conforms configSchema req_body = true ->
  exists (doc : object) (h : string),
    result (ServerA.post_config salt req_body) s = Some (json 200 (ConfigDoc doc)) /\
    result (Part000_rest.post_config salt req_body) s = Some (json 200 (ConfigDoc doc)) /\
    config (store (ServerA.post_config salt req_body) s) = Some doc /\
    doc !! "adminPassword" = Some (VStr h) /\ bcompare p h = true.
Proof.
  intros Hp Hne Hconf.
  destruct (castUpdate_conforms configSchema
              (config_update req_body (VStr (bhash salt p)))) as [m Hcast];
    [by apply conforms_config_update|].
  exists (m ∪ default ∅ (config s)), (bhash salt p).
  unfold result, store.
  rewrite (ServerA_post_config_with_password salt req_body s p Hp Hne).
  unfold upsert_outcome. rewrite Hcast. simpl.
  split; [done|]. split; [|split; [done|split]].
  - unfold Part000_rest.post_config, bind, Config_findOneAndUpdate, call, ret,
      or_else.
    cbv zeta. cbv beta iota. rewrite Hp. simpl.
    apply String.eqb_neq in Hne. rewrite Hne. simpl.
    fold (config_update req_body (VStr (bhash salt p))). by rewrite Hcast.
  - apply lookup_union_Some_l.
    by rewrite (castUpdate_adminPassword _ _ _ Hcast).
  - by apply bcompare_bhash.
Qed.

(** The upsert stores keys of the schema only. *)
Lemma Config_findOneAndUpdate_preserves_keys (u : object) :
  preserves (fun s => schema_keys_only (config s)) (Config_findOneAndUpdate u).
Proof.
  apply preserves_call. intros s Hkeys.
  destruct (castUpdate configSchema u) as [m|] eqn:Hcast; [|exact Hkeys].
  intros doc k [= <-] [v Hv]. simpl in Hv.
  apply lookup_union_Some_raw in Hv as [Hv | [_ Hv]].
  - rewrite (castUpdate_lookup _ _ _ _ Hcast) in Hv.
    destruct (path_of configSchema k) as [t|] eqn:Ht; [|discriminate].
    apply path_of_In in Ht. by apply (List.in_map fst) in Ht.
  - destruct (config s) as [old|] eqn:Hold; simpl in Hv; [by eapply Hkeys|].
    by rewrite lookup_empty in Hv.
Qed.

End ConfigMore.

#[export] Hint Resolve Config_findOneAndUpdate_preserves_keys : preserves.

Section ConfigKeys.
Context `{Platform}.


End ConfigKeys.

(** ** More of the Content Service *)

Section BlogsMore.
Context `{Platform}.


(** X10.  part_002: on a store where the id about to be drawn is unused,
    creating a post and then deleting the post that was answered gives 200
    and leaves the posts exactly as they were before the two requests. *)
Theorem Part002_create_then_delete (now : Z) (req_body : object) (s : db)
    (t c : string) :
  blogs s !! next_id s = None ->
  prop req_body "title" = VStr t -> t <> "" ->
  prop req_body "content" = VStr c -> c <> "" ->
  string_or_absent (prop req_body "seoTitle") = true ->
  string_or_absent (prop req_body "seoDescription") = true ->
  exists (id : ObjectId) (b : Blog),
    result (Part002.post_blogs now req_body) s = Some (json 201 (BlogDoc id b)) /\
    let s1 := store (Part002.post_blogs now req_body) s in
    result (Part002.delete_blog id) s1 = Some (json 200 (Message "Blog deleted")) /\
    blogs (store (Part002.delete_blog id) s1) = blogs s.
Proof.
  intros Hfresh Ht Hne Hc Hnc Hst Hsd.
  apply String.eqb_neq in Hne, Hnc.
  exists (next_id s).
  unfold Part002.post_blogs, Part002.delete_blog, try_catch, result, store, bind,
    new_Blog, Blog_save, Blog_findByIdAndDelete, call, ret, Part002.blog_valid,
    required.
  rewrite Ht, Hc. simpl. rewrite Hne, Hnc. simpl.
  destruct (prop req_body "seoTitle"), (prop req_body "seoDescription");
    try discriminate; simpl; rewrite Hne, Hnc; simpl;
    eexists; (split; [reflexivity|]); simpl;
    rewrite lookup_insert_eq; simpl;
    (split; [reflexivity|]); by apply delete_insert_id.
Qed.

End BlogsMore.

Section PutBlog.
Context `{Platform}.

Lemma prop_blog_update (req_body : object) :
  prop (Wide.blog_update req_body) "title" = prop req_body "title" /\
  prop (Wide.blog_update req_body) "content" = prop req_body "content" /\
  prop (Wide.blog_update req_body) "seoTitle" = prop req_body "seoTitle" /\
  prop (Wide.blog_update req_body) "seoDescription" = prop req_body "seoDescription".
Proof. unfold Wide.blog_update, prop at 1 3 5 7. by simplify_map_eq. Qed.


Lemma cast_set_string_or_absent (v : value) :
  string_or_absent v = true -> is_Some (Wide.cast_set v).
Proof. destruct v; by eauto. Qed.



(** X13.  [PUT /api/blogs/:id] on a post that exists, with a title and a
    content that are non-empty strings (server.js, first document, and
    part_002): the answer is 200 with the post after the update; title and
    content are the ones given; [createdAt] and [status] are kept; no other
    post, and nothing of the admins or the config, changes. *)
Theorem put_blog_updates_in_place (id : ObjectId) (req_body : object) (s : db)
    (b : Blog) (t c : string) :
  blogs s !! id = Some b ->
  prop req_body "title" = VStr t -> t <> "" ->
  prop req_body "content" = VStr c -> c <> "" ->
  string_or_absent (prop req_body "seoTitle") = true ->
  string_or_absent (prop req_body "seoDescription") = true ->
  exists b' : Blog,
    Wide.result (ServerA_rest.put_blog id req_body) s
      = Some (Wide.json 200 (Wide.Post (Some (id, b')))) /\
    Wide.result (Part002_rest.put_blog id req_body) s
      = Some (Wide.json 200 (Wide.Post (Some (id, b')))) /\
    Wide.store (Part002_rest.put_blog id req_body) s
      = Wide.store (ServerA_rest.put_blog id req_body) s /\
    let s' := Wide.store (ServerA_rest.put_blog id req_body) s in
    blogs s' !! id = Some b' /\
    b'.(title) = Some t /\ b'.(content) = Some c /\
    b'.(createdAt) = b.(createdAt) /\ b'.(status) = b.(status) /\
    (forall id', id' <> id -> blogs s' !! id' = blogs s !! id') /\
    admins s' = admins s /\ config s' = config s /\ next_id s' = next_id s.
Proof.
  intros Hb Ht Hne Hc Hnc Hst Hsd.
  destruct (prop_blog_update req_body) as (Et & Ec & Est & Esd).
  destruct (cast_set_string_or_absent _ Hst) as [st Hst'].
  destruct (cast_set_string_or_absent _ Hsd) as [sd Hsd'].
  apply String.eqb_neq in Hne, Hnc.
  unfold ServerA_rest.put_blog, Part002_rest.put_blog, Wide.result, Wide.store,
    Wide.try_catch, Wide.bind, Wide.Blog_findByIdAndUpdate, Wide.call.
  cbv zeta. rewrite Et, Ec, Est, Esd, Ht, Hc, Hst', Hsd'.
  cbn [Wide.cast_set truthy Wide.set_valid required]. rewrite Hne, Hnc.
  cbn [negb orb andb]. rewrite Hb. cbn.
  eexists. split; [reflexivity|]. split; [reflexivity|]. split; [reflexivity|].
  split; [apply lookup_insert_eq|]. repeat (split; [reflexivity|]).
  split; [|done]. intros id' Hid. by apply lookup_insert_ne.
Qed.

(** part_002 refuses a PUT without a title or without content before
    it calls the model: 400, nothing looked up, nothing written. *)
Lemma Part002_put_blog_requires_fields (id : ObjectId) (req_body : object)
    (s : db) :
  truthy (prop req_body "title") = false \/
  truthy (prop req_body "content") = false ->
  Part002_rest.put_blog id req_body s =
    (Some (Wide.json 400 (Wide.Body (Message "Title and content are required"))),
     s, []).
Proof.
  intros Hmiss. unfold Part002_rest.put_blog, Wide.try_catch.
  destruct Hmiss as [-> | ->]; simpl; rewrite ?orb_true_r; reflexivity.
Qed.

(** part_002, a post that passes validation: the whole run. *)
Lemma Part002_post_blogs_run (now : Z) (req_body : object) (s : db) (t c : string) :
  prop req_body "title" = VStr t -> t <> "" ->
  prop req_body "content" = VStr c -> c <> "" ->
  string_or_absent (prop req_body "seoTitle") = true ->
  string_or_absent (prop req_body "seoDescription") = true ->
  exists b : Blog,
    result (Part002.post_blogs now req_body) s
      = Some (json 201 (BlogDoc (next_id s) b)) /\
    blogs (store (Part002.post_blogs now req_body) s)
      = <[next_id s := b]> (blogs s).
Proof.
  intros Ht Hne Hc Hnc Hst Hsd.
  apply String.eqb_neq in Hne, Hnc.
  unfold Part002.post_blogs, try_catch, result, store, bind, new_Blog,
    Blog_save, call, ret, Part002.blog_valid, required.
  rewrite Ht, Hc. simpl. rewrite Hne, Hnc. simpl.
  destruct (prop req_body "seoTitle"), (prop req_body "seoDescription");
    try discriminate; simpl; rewrite Hne, Hnc; simpl;
    eexists; split; reflexivity.
Qed.

(** X14.  part_002: after a post is created on a store where the id about
    to be drawn is unused, [GET /api/blogs] answers the posts it answered
    before and the new one, each once. *)
Theorem Part002_create_then_list (now : Z) (req_body : object) (s : db)
    (t c : string) :
  blogs s !! next_id s = None ->
  prop req_body "title" = VStr t -> t <> "" ->
  prop req_body "content" = VStr c -> c <> "" ->
  string_or_absent (prop req_body "seoTitle") = true ->
  string_or_absent (prop req_body "seoDescription") = true ->
  exists (id : ObjectId) (b : Blog) (before after : list (ObjectId * Blog)),
    result (Part002.post_blogs now req_body) s = Some (json 201 (BlogDoc id b)) /\
    Wide.result Part002_rest.get_blogs s = Some (Wide.json 200 (Wide.Posts before)) /\
    Wide.result Part002_rest.get_blogs (store (Part002.post_blogs now req_body) s)
      = Some (Wide.json 200 (Wide.Posts after)) /\
    after ≡ₚ (id, b) :: before.
Proof.
  intros Hfresh Ht Hne Hc Hnc Hst Hsd.
  destruct (Part002_post_blogs_run now req_body s t c Ht Hne Hc Hnc Hst Hsd)
    as (b & Hres & Hblogs).
  exists (next_id s), b, (map_to_list (blogs s)),
    (map_to_list (blogs (store (Part002.post_blogs now req_body) s))).
  split; [exact Hres|]. split; [reflexivity|]. split; [reflexivity|].
  rewrite Hblogs. by apply map_to_list_insert.
Qed.

End PutBlog.

(** * More properties of the admin store and the admin page *)

Section StoreMore.
Import AdminStore AdminStore_rest.

(** X18.  A call that fails leaves the data of the store as it was:
    whichever action it is (and for [initialize], whichever of its two
    requests fails), the auth flag, the config and the posts are unchanged,
    [loading] is down and [error] holds the action's message. *)
Theorem AdminStore_failure_keeps_data (axios : transport) (st : AdminState)
    (msg : string) :
  (forall fields,
      axios POST (API_BASE_URL +:+ "/api/config") (Some (spread (config st) fields))
        = Rejected msg ->
      failed_with "Failed to update config" st (updateConfig axios fields st)) /\
  (forall id,
      axios DELETE (API_BASE_URL +:+ "/api/blogs/" +:+ id) None = Rejected msg ->
      failed_with "Failed to delete blog post" st (deleteBlogPost axios id st)) /\
  failed_with "Failed to add blog post" st (addBlogPost (Failed msg) st) /\
  (forall id, failed_with "Failed to update blog post" st
                (updateBlogPost id (Failed msg) st)) /\
  failed_with "Authentication failed" st (login (Failed msg) st).1 /\
  failed_with "Invalid credentials" st (login (Replied false) st).1 /\
  (forall blogsResponse,
      failed_with "Failed to load data from server. Please try again later." st
        (initialize (Failed msg) blogsResponse st)) /\
  (forall configResponse,
      failed_with "Failed to load data from server. Please try again later." st
        (initialize configResponse (Failed msg) st)).
Proof.
  unfold failed_with. split; [|split; [|split; [|split; [|split; [|split; [|split]]]]]].
  - intros fields Hrej. unfold updateConfig, updateConfig_request. simpl.
    by rewrite Hrej.
  - intros id Hrej. unfold deleteBlogPost. simpl. by rewrite Hrej.
  - done.
  - done.
  - done.
  - done.
  - done.
  - by intros [c|m].
Qed.

(** X19.  [updateBlogPost(id, post)], when the PUT resolves with [data]:
    the list keeps its length and its order; a post whose [id] is the
    string [id] becomes [data]; every other post stays as it is. *)
Theorem AdminStore_updateBlogPost_replaces_by_id (id : string) (data : object)
    (st : AdminState) :
  let st' := updateBlogPost id (Replied data) st in
  length (blogPosts st') = length (blogPosts st) /\
  forall i p, blogPosts st !! i = Some p ->
    (p !! "id" = Some (VStr id) -> blogPosts st' !! i = Some data) /\
    (p !! "id" <> Some (VStr id) -> blogPosts st' !! i = Some p).
Proof.
  simpl. split; [apply length_map|].
  intros i p Hp. rewrite list_lookup_fmap, Hp. simpl.
  destruct (strict_ne_str (prop p "id") id) eqn:Hne; simpl.
  - split; [|done]. intros Hid. unfold prop in Hne. rewrite Hid in Hne.
    simpl in Hne. by rewrite String.eqb_refl in Hne.
  - apply strict_ne_str_false in Hne. unfold prop in Hne.
    split; [done|]. intros Hid. destruct (p !! "id"); congruence.
Qed.

(** X20.  The servers answer posts that carry Mongo's [_id] and no [id],
    and the page passes [post._id] to the store.  On a list in which no post
    has an [id] key, a resolved [updateBlogPost] and a resolved
    [deleteBlogPost] leave the local list exactly as it was: the edit or the
    deletion does not show. *)
Theorem AdminStore_no_id_key_no_local_change (axios : transport) (id : string)
    (data : object) (answered : value) (st : AdminState) :
  (forall p, In p (blogPosts st) -> p !! "id" = None) ->
  axios DELETE (API_BASE_URL +:+ "/api/blogs/" +:+ id) None = Resolved answered ->
  blogPosts (updateBlogPost id (Replied data) st) = blogPosts st /\
  blogPosts (deleteBlogPost axios id st) = blogPosts st.
Proof.
  intros Hno Hdel. unfold deleteBlogPost. simpl. rewrite Hdel. simpl.
  induction (blogPosts st) as [|p l IH]; [done|].
  assert (strict_ne_str (prop p "id") id = true) as Hp.
  { unfold prop. by rewrite (Hno p (or_introl eq_refl)). }
  destruct IH as [IH1 IH2]; [intros q Hq; apply Hno; by right|].
  simpl. rewrite Hp. simpl. by rewrite IH1, IH2.
Qed.

(** X21.  [login]: the value returned is [true] exactly when the request
    resolved with a truthy [success]; the auth flag afterwards is the flag
    before or that value, so a failed login never clears a flag that was
    set; the config and the posts are untouched either way. *)
Theorem AdminStore_login_flag (response : reply bool) (st : AdminState) :
  let (st', returned) := login response st in
  (returned = true <-> response = Replied true) /\
  isAuthenticated st' = isAuthenticated st || returned /\
  config st' = config st /\ blogPosts st' = blogPosts st /\
  loading st' = false.
Proof.
  destruct response as [[]|msg]; simpl; rewrite ?orb_true_r, ?orb_false_r;
    repeat split; done.
Qed.

(** X22.  [initialize] against [GET /api/config] of server.js on a store
    with no config document: the answer is the empty object, which is
    truthy, so the store's [defaultConfig] is not taken: the local config
    ends empty, without a title. *)
Theorem AdminStore_initialize_empty_config (s : db) (doc : object)
    (posts : option (list object)) (st : AdminState) :
  Mongo.config s = None ->
  result ServerA.get_config s = Some (json 200 (ConfigDoc doc)) ->
  let st' := initialize (Replied (Some doc)) (Replied posts) st in
  config st' = ∅ /\ config st' !! "title" = None /\
  defaultConfig !! "title" = Some (VStr "UniUnity.space").
Proof.
  intros Hnone Hget. simpl.
  assert (doc = ∅) as ->.
  { revert Hget. unfold ServerA.get_config, result, try_catch, bind,
      Config_findOne, call, ret. simpl. rewrite Hnone. by intros [= <-]. }
  done.
Qed.

(** X23.  Two [updateConfig] calls in a row, both resolved, leave the
    config that one call with the two sets of fields merged leaves (the
    later fields winning); and the body posted is the whole local config
    with the fields laid over it, so every key the store holds is sent. *)
Theorem AdminStore_updateConfig_composes (axios : transport)
    (f g : object) (st : AdminState) (d1 d2 : value) :
  axios POST (API_BASE_URL +:+ "/api/config") (Some (spread (config st) f))
    = Resolved d1 ->
  axios POST (API_BASE_URL +:+ "/api/config") (Some (spread (spread (config st) f) g))
    = Resolved d2 ->
  config (updateConfig axios g (updateConfig axios f st))
    = config (updateConfig axios (spread f g) st) /\
  (forall k, is_Some (config st !! k) ->
             is_Some (updateConfig_request f (begin st) !! k)).
Proof.
  intros H1 H2.
  assert (spread (config st) (spread f g) = spread (spread (config st) f) g) as Hassoc.
  { unfold spread. by rewrite (assoc_L (∪)). }
  split.
  - unfold updateConfig, updateConfig_request. simpl.
    rewrite H1. simpl. rewrite H2, Hassoc, H2. reflexivity.
  - intros k [v Hv]. unfold updateConfig_request. simpl. rewrite lookup_spread.
    destruct (f !! k); eauto.
Qed.

End StoreMore.

Section Slug.
Import AdminPage.

Lemma alnum_not_dash (c : ascii) : alnum c = true -> Ascii.eqb c "-" = false.
Proof.
  destruct (Ascii.eqb_spec c "-") as [->|]; [|done]. by vm_compute.
Qed.

Lemma alnum_lower (c : ascii) : alnum c = true -> lower c = c.
Proof.
  destruct c as [[] [] [] [] [] [] [] []]; vm_compute; congruence.
Qed.

Lemma dash_runs_separated (b : bool) (s : string) :
  dash_separated b (dash_runs b s) = true.
Proof.
  revert b. induction s as [|c r IH]; intros b; [done|]. simpl.
  destruct (alnum c) eqn:Hc.
  - simpl. by rewrite (alnum_not_dash c Hc), Hc, IH.
  - destruct b; [apply IH|]. simpl. apply IH.
Qed.

Lemma dash_separated_weaken (s : string) :
  dash_separated true s = true -> dash_separated false s = true.
Proof.
  destruct s as [|c r]; [done|]. simpl. by destruct (Ascii.eqb c "-").
Qed.

Lemma strip_leading_separated (s : string) :
  dash_separated false s = true ->
  dash_separated true (strip_leading_dash s) = true.
Proof.
  destruct s as [|c r]; [done|]. simpl.
  destruct (Ascii.eqb c "-") eqn:Hc; [done|]. simpl. by rewrite Hc.
Qed.

Lemma strip_trailing_shaped (b : bool) (s : string) :
  dash_separated b s = true -> slug_shaped b (strip_trailing_dash s) = true.
Proof.
  revert b. induction s as [|c r IH]; intros b; [done|].
  change (strip_trailing_dash (String c r))
    with (match r with
          | EmptyString => if Ascii.eqb c "-" then EmptyString else String c r
          | String _ _ => String c (strip_trailing_dash r)
          end).
  simpl. destruct (Ascii.eqb c "-") eqn:Hc.
  - intros [Hb Hr]%andb_true_iff. destruct r as [|c' r']; [done|].
    simpl. rewrite Hc, Hb. simpl.
    specialize (IH true Hr). simpl in Hr.
    destruct (Ascii.eqb c' "-") eqn:Hc'; [done|].
    destruct r' as [|c'' r'']; simpl in *; [by rewrite ?Hc' in *|].
    by rewrite ?Hc' in *.
  - intros [Ha Hr]%andb_true_iff. destruct r as [|c' r'].
    + simpl. by rewrite Hc, Ha.
    + simpl. rewrite Hc, Ha. simpl. by apply (IH false).
Qed.

(** X24.  The slug made from a title is always well formed: words over a-z
    and 0-9 joined by single dashes, with no dash at either end. *)
Theorem generatedSlug_well_formed (title : string) :
  ascii_text title = true ->
  slug_shaped true (generatedSlug title) = true.
Proof.
  intros _. unfold generatedSlug, strip_dashes.
  apply strip_trailing_shaped, strip_leading_separated, dash_runs_separated.
Qed.

Lemma slug_shaped_separated (b : bool) (s : string) :
  slug_shaped b s = true -> dash_separated b s = true.
Proof.
  revert b. induction s as [|c r IH]; intros b; [done|]. simpl.
  destruct (Ascii.eqb c "-").
  - intros [[Hb _]%andb_true_iff Hr]%andb_true_iff. rewrite Hb. by apply IH.
  - intros [Ha Hr]%andb_true_iff. rewrite Ha. by apply IH.
Qed.

Lemma toLowerCase_separated (b : bool) (s : string) :
  dash_separated b s = true -> toLowerCase s = s.
Proof.
  revert b. induction s as [|c r IH]; intros b; [done|]. simpl.
  destruct (Ascii.eqb_spec c "-") as [->|_].
  - intros [_ Hr]%andb_true_iff. by rewrite (IH true Hr).
  - intros [Ha Hr]%andb_true_iff. by rewrite (alnum_lower c Ha), (IH false Hr).
Qed.

Lemma dash_runs_separated_id (b : bool) (s : string) :
  dash_separated b s = true -> dash_runs b s = s.
Proof.
  revert b. induction s as [|c r IH]; intros b; [done|]. simpl.
  destruct (Ascii.eqb_spec c "-") as [->|_].
  - intros [Hb Hr]%andb_true_iff. apply negb_true_iff in Hb as ->.
    change (alnum "-") with false. cbv iota. by rewrite (IH true Hr).
  - intros [Ha Hr]%andb_true_iff. by rewrite Ha, (IH false Hr).
Qed.

Lemma strip_trailing_shaped_id (b : bool) (s : string) :
  slug_shaped b s = true -> strip_trailing_dash s = s.
Proof.
  revert b. induction s as [|c r IH]; intros b; [done|].
  change (strip_trailing_dash (String c r))
    with (match r with
          | EmptyString => if Ascii.eqb c "-" then EmptyString else String c r
          | String _ _ => String c (strip_trailing_dash r)
          end).
  simpl. destruct (Ascii.eqb c "-") eqn:Hc.
  - intros [[_ Hne]%andb_true_iff Hr]%andb_true_iff.
    destruct r as [|c' r']; [done|]. by rewrite (IH true Hr).
  - intros [_ Hr]%andb_true_iff.
    destruct r as [|c' r']; [done|]. by rewrite (IH false Hr).
Qed.

(** X25.  A well-formed slug is its own slug; so making the slug of a slug
    changes nothing. *)
Theorem generatedSlug_idempotent (title : string) :
  ascii_text title = true ->
  (forall s, slug_shaped true s = true -> generatedSlug s = s) /\
  generatedSlug (generatedSlug title) = generatedSlug title.
Proof.
  intros Hascii.
  assert (forall s, slug_shaped true s = true -> generatedSlug s = s) as Hfix.
  { intros s Hs. unfold generatedSlug, strip_dashes.
    pose proof (slug_shaped_separated true s Hs) as Hsep.
    rewrite (toLowerCase_separated true s Hsep).
    rewrite (dash_runs_separated_id false s (dash_separated_weaken s Hsep)).
    assert (strip_leading_dash s = s) as ->.
    { destruct s as [|c r]; [done|]. simpl in *.
      by destruct (Ascii.eqb c "-"). }
    by apply (strip_trailing_shaped_id true). }
  split; [exact Hfix|]. by apply Hfix, generatedSlug_well_formed.
Qed.

Lemma has_alnum_dash_runs (b : bool) (s : string) :
  has_alnum (dash_runs b (toLowerCase s)) = has_alnum s.
Proof.
  revert b. induction s as [|c r IH]; intros b; [done|]. simpl.
  destruct (alnum (lower c)) eqn:Hc.
  - simpl. by rewrite (alnum_lower _ Hc), Hc.
  - destruct b; simpl; by rewrite IH.
Qed.

Lemma has_alnum_strip_leading (s : string) :
  has_alnum (strip_leading_dash s) = has_alnum s.
Proof.
  destruct s as [|c r]; [done|]. simpl.
  by destruct (Ascii.eqb_spec c "-") as [->|_].
Qed.

Lemma has_alnum_strip_trailing (s : string) :
  has_alnum (strip_trailing_dash s) = has_alnum s.
Proof.
  induction s as [|c r IH]; [done|].
  change (strip_trailing_dash (String c r))
    with (match r with
          | EmptyString => if Ascii.eqb c "-" then EmptyString else String c r
          | String _ _ => String c (strip_trailing_dash r)
          end).
  destruct r as [|c' r'].
  - by destruct (Ascii.eqb_spec c "-") as [->|_].
  - change (has_alnum (String c (strip_trailing_dash (String c' r'))))
      with (alnum (lower c) || has_alnum (strip_trailing_dash (String c' r'))).
    by rewrite IH.
Qed.

(** X26.  The slug is empty exactly when the title has no letter and no
    digit; the effect then still overwrites the slug field with it. *)
Theorem generatedSlug_empty_iff (title : string) :
  ascii_text title = true ->
  (generatedSlug title = "" <-> has_alnum title = false) /\
  (title <> "" -> forall slug seoTitle,
      (title_effect title slug seoTitle).1 = generatedSlug title).
Proof.
  intros Hascii. split.
  - assert (has_alnum (generatedSlug title) = has_alnum title) as Hsame.
    { unfold generatedSlug, strip_dashes.
      by rewrite has_alnum_strip_trailing, has_alnum_strip_leading,
        has_alnum_dash_runs. }
    pose proof (generatedSlug_well_formed title Hascii) as Hshape.
    split.
    + intros Hempty. by rewrite <- Hsame, Hempty.
    + intros Hnone. rewrite <- Hsame in Hnone.
      destruct (generatedSlug title) as [|c r]; [done|].
      simpl in Hshape, Hnone. apply orb_false_iff in Hnone as [Hc _].
      destruct (Ascii.eqb c "-"); [done|].
      apply andb_true_iff in Hshape as [Ha _].
      by rewrite (alnum_lower c Ha), Ha in Hc.
  - intros Hne slug seoTitle. unfold title_effect.
    by rewrite (proj2 (String.eqb_neq _ _) Hne).
Qed.

End Slug.

Example generatedSlug_hello :
  AdminPage.generatedSlug "  Hello, World! 2025 " = "hello-world-2025".
Proof. reflexivity. Qed.

Section Part000Auth.
Context `{Platform}.


End Part000Auth.

(** * The further properties on concrete inputs *)

Section Witnesses.
#[local] Existing Instance Reference.platform.

Let post : Blog :=
  {| title := Some "Old"; content := Some "Text"; seoTitle := None;
     seoDescription := None; createdAt := 1700000000000; status := "draft" |}.

Let one_post : db := set_blogs {[ 7 := post ]} (set_config None empty_db).

Let new_post : object := {[ "title" := VStr "New"; "content" := VStr "Body" ]}.



Lemma Part002_no_hash_refuses_every_rotation_witness :
  let s := store (Part002.post_config "salt0" {[ "title" := VStr "Site" ]}) empty_db in
  Part002.post_config "salt1" {[ "adminPassword" := VStr "first" ]} s
  = (Some (json 401 (Message "Current password is incorrect")), s, [ConfigFindOne]).
Proof.
  intros s.
  apply (Part002_no_hash_refuses_every_rotation (H := Reference.platform) "salt1" ""
           {[ "adminPassword" := VStr "first" ]} {[ "title" := VStr "Site" ]} s);
    reflexivity.
Defined.

Lemma ServerA_rotation_is_ungated_witness :
  let held : object := {[ "adminPassword" := VStr (bhash "salt0" "first") ]} in
  exists (doc : object) (h : string),
    result (ServerA.post_config "salt1" {[ "adminPassword" := VStr "second" ]})
           (set_config (Some held) empty_db)
      = Some (json 200 (ConfigDoc doc)) /\
    doc !! "adminPassword" = Some (VStr h) /\ bcompare "second" h = true.
Proof.
  intros held.
  destruct (ServerA_rotation_is_ungated (H := Reference.platform) "salt1" "second"
              {[ "adminPassword" := VStr "second" ]}
              (set_config (Some held) empty_db))
    as (doc & h & Hres & _ & _ & Hdoc & Hcmp);
    [reflexivity | discriminate | reflexivity |].
  exists doc, h. auto.
Defined.


Lemma Part002_create_then_delete_witness :
  exists (id : ObjectId) (b : Blog),
    result (Part002.post_blogs 1700000000000 new_post) empty_db
      = Some (json 201 (BlogDoc id b)) /\
    blogs (store (Part002.delete_blog id)
                 (store (Part002.post_blogs 1700000000000 new_post) empty_db))
      = blogs empty_db.
Proof.
  destruct (Part002_create_then_delete 1700000000000 new_post empty_db "New" "Body")
    as (id & b & Hres & _ & Hblogs);
    [reflexivity | reflexivity | discriminate | reflexivity | discriminate
    | reflexivity | reflexivity |].
  exists id, b. auto.
Defined.



Lemma put_blog_updates_in_place_witness :
  exists b' : Blog,
    Wide.result (Part002_rest.put_blog 7 new_post) one_post
      = Some (Wide.json 200 (Wide.Post (Some (7, b')))) /\
    b'.(title) = Some "New" /\ b'.(status) = "draft".
Proof.
  destruct (put_blog_updates_in_place (H := Reference.platform) 7 new_post one_post post "New" "Body")
    as (b' & _ & Hres & _ & _ & Ht & _ & _ & Hst & _);
    [reflexivity | reflexivity | discriminate | reflexivity | discriminate
    | reflexivity | reflexivity |].
  exists b'. auto.
Defined.

Lemma Part002_put_blog_requires_fields_witness :
  Part002_rest.put_blog 7 {[ "title" := VStr "New" ]} one_post
  = (Some (Wide.json 400 (Wide.Body (Message "Title and content are required"))),
     one_post, []).
Proof.
  apply (Part002_put_blog_requires_fields (H := Reference.platform)). right. reflexivity.
Defined.

Lemma Part002_create_then_list_witness :
  exists (id : ObjectId) (b : Blog) (after : list (ObjectId * Blog)),
    Wide.result Part002_rest.get_blogs
      (store (Part002.post_blogs 1700000000000 new_post) one_post)
      = Some (Wide.json 200 (Wide.Posts after)) /\
    after ≡ₚ [(id, b); (7, post)].
Proof.
  destruct (Part002_create_then_list 1700000000000 new_post one_post
              "New" "Body")
    as (id & b & before & after & _ & Hbefore & Hafter & Hperm);
    [reflexivity | reflexivity | discriminate | reflexivity | discriminate
    | reflexivity | reflexivity |].
  exists id, b, after. split; [exact Hafter|].
  injection Hbefore as <-. exact Hperm.
Defined.

End Witnesses.

Section StoreWitnesses.
Import AdminStore AdminStore_rest.

Let served : object := {[ "_id" := VStr "65f0"; "title" := VStr "First" ]}.

Let st0 : AdminState :=
  {| isAuthenticated := true;
     config := {[ "title" := VStr "Site"; "favicon" := VStr "/favicon.ico" ]};
     blogPosts := [served]; loading := false; error := None |}.

Let axios : transport := fun _ _ _ => Resolved VNull.

Lemma AdminStore_no_id_key_no_local_change_witness :
  blogPosts (deleteBlogPost axios "65f0" st0) = [served].
Proof.
  destruct (AdminStore_no_id_key_no_local_change axios "65f0" served VNull st0)
    as [_ Hdel]; [|reflexivity|exact Hdel].
  intros p [<-|[]]. reflexivity.
Defined.

Lemma AdminStore_initialize_empty_config_witness :
  config (initialize (Replied (Some ∅)) (Replied (Some [])) st0) !! "title" = None.
Proof.
  destruct (AdminStore_initialize_empty_config empty_db ∅ (Some []) st0)
    as (_ & Htitle & _); [reflexivity | reflexivity | exact Htitle].
Defined.

Lemma AdminStore_updateConfig_composes_witness :
  config (updateConfig axios {[ "favicon" := VStr "/b.ico" ]}
            (updateConfig axios {[ "title" := VStr "A" ]} st0))
  = config (updateConfig axios
              (spread {[ "title" := VStr "A" ]} {[ "favicon" := VStr "/b.ico" ]}) st0).
Proof.
  destruct (AdminStore_updateConfig_composes axios {[ "title" := VStr "A" ]}
              {[ "favicon" := VStr "/b.ico" ]} st0 VNull VNull)
    as [Hcompose _]; [reflexivity | reflexivity | exact Hcompose].
Defined.

End StoreWitnesses.

Lemma generatedSlug_well_formed_witness :
  slug_shaped true (AdminPage.generatedSlug "--Hello,   World!--") = true.
Proof. apply generatedSlug_well_formed. reflexivity. Defined.

Lemma generatedSlug_idempotent_witness :
  AdminPage.generatedSlug (AdminPage.generatedSlug "Rust & Go: a tour")
  = AdminPage.generatedSlug "Rust & Go: a tour".
Proof.
  destruct (generatedSlug_idempotent "Rust & Go: a tour") as [_ Hidem];
    [reflexivity | exact Hidem].
Defined.

Lemma generatedSlug_empty_iff_witness :
  AdminPage.generatedSlug "?!" = "".
Proof.
  destruct (generatedSlug_empty_iff "?!") as [[_ Hempty] _];
    [reflexivity | apply Hempty; reflexivity].
Defined.

Section Across.
Context `{Platform}.

(** X16.  [GET /api/admins] of server.js asks for no credential and answers
    the admin documents as stored: on a freshly seeded store the answer
    holds a hash against which the default password verifies.  It writes
    nothing. *)
Theorem ServerA_get_admins_answers_hashes (salt : string) :
  let seeded := store (ServerA.seed salt) empty_db in
  exists a : Admin,
    Wide.result ServerA_rest.get_admins seeded
      = Some (Wide.json 200 (Wide.Admins [a])) /\
    a.(email) = "admin" /\ bcompare "UniUnity2025!" a.(password) = true /\
    Wide.store ServerA_rest.get_admins seeded = seeded.
Proof.
  intros seeded. subst seeded. rewrite ServerA_seed_empty.
  eexists. split; [reflexivity|]. split; [reflexivity|]. split; [|reflexivity].
  by apply bcompare_bhash.
Qed.

(** X17.  The store stamps the post it sends with the client's time, and
    part_002 does not read it: the post created carries the server's time
    [now] as [createdAt], whatever [createdAt] the request holds. *)
Theorem Part002_ignores_client_createdAt (now : Z) (stamp : string)
    (post : object) (s : db) (t c : string) :
  prop post "title" = VStr t -> t <> "" ->
  prop post "content" = VStr c -> c <> "" ->
  string_or_absent (prop post "seoTitle") = true ->
  string_or_absent (prop post "seoDescription") = true ->
  exists b : Blog,
    result (Part002.post_blogs now (AdminStore_rest.addBlogPost_request stamp post)) s
      = Some (json 201 (BlogDoc (next_id s) b)) /\
    b.(createdAt) = now /\ b.(title) = Some t /\ b.(content) = Some c.
Proof.
  intros Ht Hne Hc Hnc Hst Hsd.
  assert (forall k, k <> "createdAt" ->
            prop (AdminStore_rest.addBlogPost_request stamp post) k = prop post k)
    as Hsame.
  { intros k Hk. unfold prop, AdminStore_rest.addBlogPost_request.
    by rewrite lookup_insert_ne. }
  destruct (Part002_post_blogs_created now
              (AdminStore_rest.addBlogPost_request stamp post) s t c)
    as (b & Hres & _ & Htitle & Hcontent & _ & Hcreated);
    rewrite ?Hsame by done; try done.
  exists b. auto.
Qed.

End Across.

Lemma Part002_ignores_client_createdAt_witness :
  exists b : Blog,
    result (Part002.post_blogs 1700000000000
              (AdminStore_rest.addBlogPost_request "1999-01-01T00:00:00.000Z"
                 {[ "title" := VStr "New"; "content" := VStr "Body" ]}))
           empty_db
      = Some (json 201 (BlogDoc 0 b)) /\
    b.(createdAt) = 1700000000000%Z.
Proof.
  destruct (Part002_ignores_client_createdAt 1700000000000
              "1999-01-01T00:00:00.000Z"
              {[ "title" := VStr "New"; "content" := VStr "Body" ]}
              empty_db "New" "Body")
    as (b & Hres & Hcreated & _);
    [reflexivity | discriminate | reflexivity | discriminate
    | reflexivity | reflexivity |].
  exists b. auto.
Defined.
